(** * AI Diet Coach: the metabolic calculator, the trend analyser and the
      LINE conversation handler, embedded from
      [ai_diet_coach/core.py] and [line_bot/app.py].

    Number model.  A Python [int] is a [Z].  A Python [float] is modelled by
    the rational number it denotes ([Q]); arithmetic on it is exact, so the
    development speaks about the finite floats and leaves binary rounding,
    infinities and NaN outside its domain.  Comparisons of floats are the
    boolean comparisons of [Q]; equality of results is [Qeq] ([==]).

    Text model.  A Python [str] is a [string] holding its UTF-8 bytes.
    [lower], [strip] and [split] act on the ASCII letters and the ASCII
    white space and leave every other byte alone.

    Time model.  A naive [datetime] is a [Z], the microseconds elapsed since
    a fixed epoch.

    Failure model.  A Python exception is a value of [exn]; a function that
    may raise returns a [result]. *)

From Stdlib Require Import ZArith QArith Qround Qabs Lqa String Ascii List Lia.
From stdpp Require Import base gmap strings list pretty.
Import ListNotations.

Local Open Scope string_scope.
Local Open Scope list_scope.
Local Open Scope Z_scope.

(** ** Exceptions and the error monad *)

Inductive exn : Type :=
| ValueError (msg : string)
| IndexError
| KeyError (key : string)
| TypeError
| AttributeError
| ZeroDivisionError.

Inductive result (A : Type) : Type :=
| Ok (a : A)
| Raise (e : exn).

Arguments Ok {A} a.
Arguments Raise {A} e.

#[global] Instance result_ret : MRet result := fun A a => Ok a.

#[global] Instance result_bind : MBind result := fun A B k r =>
  match r with
  | Ok a => k a
  | Raise e => Raise e
  end.

#[global] Instance result_fmap : FMap result := fun A B f r =>
  match r with
  | Ok a => Ok (f a)
  | Raise e => Raise e
  end.

(** ** Python built-ins used by the program *)

Module Py.

(** *** Strings *)

Definition lower_ascii (c : ascii) : ascii :=
  let n := nat_of_ascii c in
  if ((65 <=? n)%nat && (n <=? 90)%nat)%bool then ascii_of_nat (n + 32) else c.

(** [s.lower()] *)
Fixpoint lower (s : string) : string :=
  match s with
  | EmptyString => EmptyString
  | String c s' => String (lower_ascii c) (lower s')
  end.

(** [s or d]: the empty string is falsy. *)
Definition str_or (s d : string) : string :=
  match s with
  | EmptyString => d
  | _ => s
  end.

(** [s in {...}] *)
Definition mem (s : string) (l : list string) : bool :=
  existsb (String.eqb s) l.

(** [s * n]: a count below 1 gives the empty string. *)
Definition str_mul (s : string) (n : Z) : string :=
  String.concat "" (repeat s (Z.to_nat n)).

(** [s.startswith(p)] *)
Definition startswith (s p : string) : bool := String.prefix p s.

(** The white space of [str.strip] and [str.split] below code point 128:
    tab, line feed, vertical tab, form feed, carriage return, the four
    separators 28 to 31 and the space. *)
Definition is_space (c : ascii) : bool :=
  let n := nat_of_ascii c in
  (((9 <=? n)%nat && (n <=? 13)%nat) || ((28 <=? n)%nat && (n <=? 32)%nat))%bool.

Fixpoint lstrip (l : list ascii) : list ascii :=
  match l with
  | c :: l' => if is_space c then lstrip l' else l
  | [] => []
  end.

(** [s.strip()] *)
Definition strip (s : string) : string :=
  string_of_list_ascii
    (rev (lstrip (rev (lstrip (list_ascii_of_string s))))).

(** One pass of [s.split()]: [cur] is the token being read, reversed. *)
Fixpoint split_go (l : list ascii) (cur : list ascii) : list string :=
  let flush := match cur with
               | [] => []
               | _ => [string_of_list_ascii (rev cur)]
               end in
  match l with
  | [] => flush
  | c :: l' =>
      if is_space c then flush ++ split_go l' [] else split_go l' (c :: cur)
  end.

(** [s.split()] *)
Definition split (s : string) : list string :=
  split_go (list_ascii_of_string s) [].

(** *** Numbers *)

(** [a < b] on floats. *)
Definition Qltb (a b : Q) : bool := negb (Qle_bool b a).

(** [max(a, b)] and [min(a, b)] on floats: the first argument is kept
    unless the second is strictly larger (smaller). *)
Definition max (a b : Q) : Q := if Qltb a b then b else a.
Definition min (a b : Q) : Q := if Qltb b a then b else a.

(** [round(x)]: the nearest integer, ties to the even one. *)
Definition round (x : Q) : Z :=
  let f := Qfloor x in
  let r := (x - inject_Z f)%Q in
  if Qltb r (1 # 2) then f
  else if Qltb (1 # 2) r then f + 1
  else if Z.even f then f else f + 1.

(** [round(x, 2)]: the nearest multiple of 1/100, ties to even. *)
Definition round2 (x : Q) : Q := (inject_Z (round (x * 100)) / 100)%Q.

(** [a / b]: true division; a zero divisor raises. *)
Definition truediv (a b : Q) : result Q :=
  if Qeq_bool b 0 then Raise ZeroDivisionError else Ok (a / b)%Q.

(** [math.floor(x)] *)
Definition floor (x : Q) : Z := Qfloor x.

(** [sum(l)] *)
Definition sum (l : list Q) : Q := fold_left Qplus l 0%Q.

(** *** Sequences *)

(** [len(l)] *)
Definition len {A : Type} (l : list A) : Z := Z.of_nat (length l).

(** [l[i]] with Python's negative indices and [IndexError]. *)
Definition index {A : Type} (l : list A) (i : Z) : result A :=
  let j := if i <? 0 then len l + i else i in
  if ((j <? 0) || (len l <=? j))%bool then Raise IndexError
  else match nth_error l (Z.to_nat j) with
       | Some a => Ok a
       | None => Raise IndexError
       end.

(** [l[start:]] with Python's clamping of the start index. *)
Definition slice_from {A : Type} (l : list A) (start : Z) : list A :=
  let s := if start <? 0 then Z.max (len l + start) 0 else Z.min start (len l) in
  skipn (Z.to_nat s) l.

(** *** Dates *)

Definition datetime : Type := Z.

Definition day_us : Z := 86400000000.

(** [(a - b).days]: a [timedelta] is normalised so that its [days] is the
    floor of the difference in days. *)
Definition sub_days (a b : datetime) : Z := (a - b) / day_us.

(** [d.date()], as the day number since the epoch. *)
Definition date_of (d : datetime) : Z := d / day_us.

End Py.

(** ** [ai_diet_coach/core.py] *)

Module Core.

Local Open Scope Q_scope.

(** *** Calculations *)

Definition calculate_bmr (sex : string) (weight_kg height_cm : Q) (age : Z)
  : result Q :=
  let s := Py.lower (Py.str_or sex "") in
  if negb (Py.mem s ["male"; "female"])
  then Raise (ValueError "sex must be 'male' or 'female'")
  else
    let base := 10 * weight_kg + 6.25 * height_cm - 5 * inject_Z age in
    let base := base + (if String.eqb s "male" then 5 else -161) in
    Ok (Py.round2 base).

Definition factors : list (string * Q) :=
  [ ("sedentary", 1.2);
    ("light", 1.375);
    ("moderate", 1.55);
    ("active", 1.725);
    ("very_active", 1.9) ].

(** [factors[activity]], [None] when the key is absent. *)
Definition factors_get (activity : string) : option Q :=
  snd <$> find (fun kv => String.eqb (fst kv) activity) factors.

Definition activity_factor (activity : string) : result Q :=
  match factors_get activity with
  | None =>
      Raise (ValueError
        "activity must be one of: sedentary, light, moderate, active, very_active")
  | Some f => Ok f
  end.

Definition calculate_tdee (bmr : Q) (activity : string) : result Q :=
  f ← activity_factor activity;
  Ok (Py.round2 (bmr * f)).

Record Plan : Type := mkPlan {
  bmr : Q;
  tdee : Q;
  maintenance_kcal : Z;
  target_kcal : Z;
  delta_kcal : Z;
  mode : string;
  protein_g : Z;
  fat_g : Z;
  carb_g : Z;
  notes : list string
}.

Definition cap_note : string :=
  "安全のため日次の増減を±750/500 kcalに制限しました。".

(** The first block of [build_plan]: the daily delta from goal and deadline,
    capped to the safe range, with the notes it leaves. *)
Definition deadline_delta (weight_kg : Q)
    (goal_weight : option Q) (deadline_days : option Z)
  : result (Q * list string) :=
  match goal_weight, deadline_days with
  | Some goal_weight, Some deadline_days =>
      if (0 <? deadline_days)%Z then
        let delta_kg := goal_weight - weight_kg in
        raw_daily ← Py.truediv (delta_kg * 7700) (inject_Z deadline_days);
        let daily_change := Py.max (Py.min raw_daily 500) (-750) in
        Ok (daily_change,
            if Py.Qltb 0.000001 (Qabs (raw_daily - daily_change))
            then [cap_note] else [])
      else Ok (0, [])
  | _, _ => Ok (0, [])
  end.

(** The second block: the mode presets when no delta came from a deadline. *)
Definition preset_delta (mode_calc : string) (delta_kcal : Q) : Q :=
  if Qeq_bool delta_kcal 0 then
    if String.eqb mode_calc "cut" then -500
    else if String.eqb mode_calc "bulk" then 300
    else 0
  else delta_kcal.

Definition build_plan (sex : string) (age : Z) (height_cm weight_kg : Q)
    (activity mode : string)
    (goal_weight : option Q) (deadline_days : option Z) : result Plan :=
  bmr ← calculate_bmr sex weight_kg height_cm age;
  tdee ← calculate_tdee bmr activity;
  let mode_calc := Py.lower (Py.str_or mode "recomp") in
  dn ← deadline_delta weight_kg goal_weight deadline_days;
  let notes := snd dn in
  let delta_kcal := preset_delta mode_calc (fst dn) in
  let target_kcal := Z.max (Py.round (tdee + delta_kcal)) 1200 in
  let maintenance := Py.round tdee in
  let protein_g := Py.max (2.0 * weight_kg) (1.6 * weight_kg) in
  let fat_g := Py.max (0.6 * weight_kg) 40 in
  let remaining :=
    Py.max (inject_Z target_kcal - (protein_g * 4 + fat_g * 9)) 100 in
  let carb_g := remaining / 4 in
  Ok {| bmr := bmr;
        tdee := tdee;
        maintenance_kcal := maintenance;
        target_kcal := target_kcal;
        delta_kcal := Py.round delta_kcal;
        mode := mode_calc;
        protein_g := Py.round protein_g;
        fat_g := Py.round fat_g;
        carb_g := Py.round carb_g;
        notes := notes |}.

(** *** Weight logging and suggestions *)

Record Entry : Type := mkEntry {
  date : Py.datetime;
  weight : Q
}.

Definition MSG_KEEP_LOGGING : string :=
  "ログを続けましょう。まずは1〜2週間、同じ条件で測定を。".
Definition MSG_CUT_TOO_FAST : string :=
  "減量が速すぎるかも。炭水化物を+20〜40gか、総カロリー+100〜150kcalを検討。".
Definition MSG_CUT_GAINING : string :=
  "体重が増えています。就寝前の間食を見直し、活動量の確保を。".
Definition MSG_CUT_GOOD : string :=
  "良いペースです。この調子で。タンパク質は2g/kg確保を。".
Definition MSG_BULK_TOO_FAST : string :=
  "増量が速いかも。脂質を-10gまたは総カロリー-100kcalを検討。".
Definition MSG_BULK_SLOW : string :=
  "増えづらい場合は炭水化物+30〜50gを試して。".
Definition MSG_BULK_GOOD : string :=
  "良い増量ペース。トレ前後の炭水化物を意識。".
Definition MSG_RECOMP_STABLE : string :=
  "体重は概ね維持。フォームと睡眠を整えて質を上げよう。".
Definition MSG_RECOMP_SWING : string :=
  "維持期でも上下はあります。1〜2週間の平均で見ていきましょう。".

(** [x or 1] on an [int]: zero is falsy. *)
Definition or_one (x : Z) : Z := if (x =? 0)%Z then 1%Z else x.

Definition suggest_after_log (history : list Entry) (mode : string)
    (recent_window : Z) : result string :=
  match history with
  | [] => Ok MSG_KEEP_LOGGING
  | _ =>
      let mode := Py.lower (Py.str_or mode "recomp") in
      let last := Py.slice_from history (- recent_window) in
      daily_change ←
        (if (2 <=? Py.len last)%Z then
           z ← Py.index last (-1);
           a ← Py.index last 0;
           let delta := weight z - weight a in
           let days := or_one (Py.sub_days (date z) (date a)) in
           Py.truediv delta (inject_Z days)
         else Ok 0);
      if String.eqb mode "cut" then
        if Py.Qltb daily_change (-0.15) then Ok MSG_CUT_TOO_FAST
        else if Py.Qltb 0.05 daily_change then Ok MSG_CUT_GAINING
        else Ok MSG_CUT_GOOD
      else if String.eqb mode "bulk" then
        if Py.Qltb 0.25 daily_change then Ok MSG_BULK_TOO_FAST
        else if Py.Qltb daily_change 0.05 then Ok MSG_BULK_SLOW
        else Ok MSG_BULK_GOOD
      else
        if Py.Qltb (Qabs daily_change) 0.05 then Ok MSG_RECOMP_STABLE
        else Ok MSG_RECOMP_SWING
  end.

(** The dictionary returned by [summarise_history]: either [{"count": 0}]
    or the full summary.  [from_] and [to_] hold the day numbers whose ISO
    rendering the source returns. *)
Record Stats : Type := mkStats {
  count : Z;
  from_ : Z;
  to_ : Z;
  start : Q;
  end_ : Q;
  avg : Q;
  delta : Q;
  trend : string
}.

Inductive Summary : Type :=
| CountZero
| Full (s : Stats).

(** [s["count"]] *)
Definition get_count (s : Summary) : Z :=
  match s with
  | CountZero => 0%Z
  | Full st => count st
  end.

Definition TREND_DOWN : string := "↘".
Definition TREND_UP : string := "↗".
Definition TREND_FLAT : string := "→".

Definition summarise_history (history : list Entry) (days : Z)
  : result Summary :=
  match history with
  | [] => Ok CountZero
  | _ =>
      cutoff ← date <$> Py.index history (-1);
      let window :=
        List.filter (fun x => (Py.sub_days cutoff (date x) <=? days)%Z)
                    history in
      match window with
      | [] => Ok CountZero
      | _ =>
          let weights := map weight window in
          wz ← Py.index weights (-1);
          wa ← Py.index weights 0;
          let delta := wz - wa in
          mean ← Py.truediv (Py.sum weights) (inject_Z (Py.len weights));
          let avg := Py.round2 mean in
          let trend :=
            if Py.Qltb delta (-0.3) then TREND_DOWN
            else if Py.Qltb 0.3 delta then TREND_UP
            else TREND_FLAT in
          a ← Py.index window 0;
          z ← Py.index window (-1);
          wa' ← Py.index weights 0;
          wz' ← Py.index weights (-1);
          Ok (Full {| count := Py.len window;
                      from_ := Py.date_of (date a);
                      to_ := Py.date_of (date z);
                      start := Py.round2 wa';
                      end_ := Py.round2 wz';
                      avg := avg;
                      delta := Py.round2 delta;
                      trend := trend |})
      end
  end.

(** *** Profile helpers *)

Definition progress_bar (done total width : Z) : result string :=
  let done := Z.max 0 (Z.min done total) in
  filled ←
    (if (total =? 0)%Z then Ok 0%Z
     else Py.floor <$> Py.truediv (inject_Z (width * done)) (inject_Z total));
  Ok ("【" +:+ Py.str_mul "█" filled +:+ Py.str_mul "░" (width - filled)
      +:+ "】 " +:+ pretty done +:+ "/" +:+ pretty total).

Definition required : list string :=
  ["sex"; "age"; "height_cm"; "weight_kg"; "activity"; "mode"].

(** [", ".join(l)] *)
Definition join_comma (l : list string) : string := String.concat ", " l.

Definition validate_profile {V : Type} (p : gmap string V) : result unit :=
  let missing := List.filter (fun k => bool_decide (p !! k = None)) required in
  match missing with
  | [] => Ok tt
  | _ => Raise (ValueError ("missing fields: " +:+ join_comma missing))
  end.

End Core.

(** ** [line_bot/app.py] *)

Module App.

(** The values a profile dictionary holds. *)
Inductive pyval : Type :=
| VNone
| VInt (n : Z)
| VFloat (x : Q)
| VStr (s : string).

(** The per-user state dictionary of [load_state] and [save_state]. *)
Record Session : Type := mkSession {
  profile : gmap string pyval;
  history : list Core.Entry;
  stage : string;
  onboard_idx : Z
}.

Definition ONBOARD_KEYS : list (string * string) :=
  [ ("sex", "性別を入力（male/female）");
    ("age", "年齢を入力（整数）");
    ("height_cm", "身長(cm)を入力。例: 170");
    ("weight_kg", "体重(kg)を入力。例: 65");
    ("activity", "活動量（sedentary/light/moderate/active/very_active）");
    ("mode", "モード（cut/recomp/bulk）");
    ("goal_weight", "目標体重(kg)を入力（任意。スキップは 'skip'）");
    ("deadline_days", "期限(日)を入力（任意。スキップは 'skip'）") ].

(** The state [load_state] returns for an unknown user and [reset] stores. *)
Definition initial_state : Session :=
  {| profile := ∅; history := []; stage := "idle"; onboard_idx := 0 |}.

Definition GUIDE_CUT : string :=
  "🍽 ガイド(cut): 体重×2gのタンパク質、脂質は体重×0.6g目安、残り炭水化物。就寝前の間食は控えめに。NEATを確保。".
Definition GUIDE_BULK : string :=
  "🍽 ガイド(bulk): 体重×2gのタンパク質、炭水化物はトレ前後を厚めに。脂質は控えめ〜中庸。週+0.25〜0.5kg以内を目安。".
Definition GUIDE_RECOMP : string :=
  "🍽 ガイド(recomp): Pを十分に確保しつつ、日々の活動量と睡眠を最適化。週あたり±0.25kgに収まるよう微調整。".

Definition guide_text (mode : string) : string :=
  let m := Py.lower (Py.str_or mode "recomp") in
  if String.eqb m "cut" then GUIDE_CUT
  else if String.eqb m "bulk" then GUIDE_BULK
  else GUIDE_RECOMP.

Definition REPROMPT_SEX : string := "male/female を入力してください".
Definition REPROMPT_ACTIVITY : string :=
  "sedentary/light/moderate/active/very_active から選択してください".
Definition REPROMPT_MODE : string := "cut/recomp/bulk から選択してください".

(** The text handed to [reply].  A constructor stands for one message
    template of [callback] and carries the values the template renders. *)
Inductive reply : Type :=
| Help
| ResetDone
| OnboardingStarted (pb q : string)
| PlanText (plan : Core.Plan)
| ProfileIncomplete (e : exn)
| Logged (w : Q) (suggestion : string)
| LogFailed (e : exn)
| NoHistory
| HistoryText (s7 s30 : option Core.Stats)
| GuideNeedsProfile
| Guide (text : string)
| ProfileShown (p : gmap string pyval)
| ProfileUpdated (key : string) (value : pyval)
| ProfileSetUsage
| Reprompt (text : string)
| OnboardingDone (pb : string) (plan : Core.Plan)
| OnboardingIncomplete (e : exn)
| NextQuestion (pb q : string)
| CommandNotFound.

(** What handling one text event does: the reply sent and the state handed
    to [save_state] (if any), or the exception that leaves [callback]. *)
Inductive outcome : Type :=
| Replied (r : reply) (saved : option Session)
| Raised (e : exn).

(** [bool(v)] *)
Definition truthy (v : pyval) : bool :=
  match v with
  | VNone => false
  | VInt n => negb (n =? 0)
  | VFloat x => negb (Qeq_bool x 0)
  | VStr s => negb (String.eqb s "")
  end.

(** A profile value [v] that meets [(v or default).lower()] in the callee:
    a string goes through, a falsy value gives way to the default (as the
    empty string does), a non-zero number has no [lower]. *)
Definition or_str (v : pyval) : result string :=
  if negb (truthy v) then Ok ""
  else match v with
       | VStr s => Ok s
       | _ => Raise AttributeError
       end.

(** A profile value looked up in a dictionary with string keys: only a
    string can be a key of it. *)
Definition key_str (v : pyval) : string :=
  match v with
  | VStr s => s
  | _ => ""
  end.

(** [d[k]] *)
Definition getitem (d : gmap string pyval) (k : string) : result pyval :=
  match d !! k with
  | Some v => Ok v
  | None => Raise (KeyError k)
  end.

(** [d.get(k)] *)
Definition get (d : gmap string pyval) (k : string) : pyval :=
  default VNone (d !! k).

(** [int(x)] on a float: truncation towards zero. *)
Definition trunc (x : Q) : Z := Z.quot (Qnum x) (Zpos (Qden x)).

(** [v not in (None, "", "skip")] *)
Definition given (v : pyval) : bool :=
  match v with
  | VNone => false
  | VStr s => negb (String.eqb s "" || String.eqb s "skip")
  | _ => true
  end.

(** [{"date": h["date"], "weight": h["weight"]} for h in hist] *)
Definition simple (hist : list Core.Entry) : list Core.Entry :=
  map (fun h => Core.mkEntry (Core.date h) (Core.weight h)) hist.

(** A line of the history reply is written when [s.get("count", 0) > 0]. *)
Definition shown (s : Core.Summary) : option Core.Stats :=
  match s with
  | Core.Full st => if 0 <? Core.count st then Some st else None
  | Core.CountZero => None
  end.

Section Builtins.

(** [int(s)] and [float(s)] on a string are parameters: [None] stands for
    the [ValueError] of a string that is no number. *)
Variable int_of_str : string -> option Z.
Variable float_of_str : string -> option Q.

Definition int_str (s : string) : result Z :=
  match int_of_str s with
  | Some n => Ok n
  | None => Raise (ValueError "invalid literal for int() with base 10")
  end.

Definition float_str (s : string) : result Q :=
  match float_of_str s with
  | Some x => Ok x
  | None => Raise (ValueError "could not convert string to float")
  end.

(** [int(v)] *)
Definition to_int (v : pyval) : result Z :=
  match v with
  | VInt n => Ok n
  | VFloat x => Ok (trunc x)
  | VStr s => int_str s
  | VNone => Raise TypeError
  end.

(** [float(v)] *)
Definition to_float (v : pyval) : result Q :=
  match v with
  | VInt n => Ok (inject_Z n)
  | VFloat x => Ok x
  | VStr s => float_str s
  | VNone => Raise TypeError
  end.

(** [build_plan] called on profile values: the callee meets [sex] first,
    then [activity], then [mode]. *)
Definition call_build_plan (sex : pyval) (age : Z) (height_cm weight_kg : Q)
    (activity mode : pyval)
    (goal_weight : option Q) (deadline_days : option Z) : result Core.Plan :=
  sex ← or_str sex;
  match or_str mode with
  | Ok mode =>
      Core.build_plan sex age height_cm weight_kg (key_str activity) mode
                      goal_weight deadline_days
  | Raise e =>
      bmr ← Core.calculate_bmr sex weight_kg height_cm age;
      _ ← Core.calculate_tdee bmr (key_str activity);
      Raise e
  end.

(** [format_plan]: the plan whose fields the returned text renders. *)
Definition format_plan (profile : gmap string pyval) : result Core.Plan :=
  let goal_w := get profile "goal_weight" in
  let deadline := get profile "deadline_days" in
  sex ← getitem profile "sex";
  age ← getitem profile "age" ≫= to_int;
  height_cm ← getitem profile "height_cm" ≫= to_float;
  weight_kg ← getitem profile "weight_kg" ≫= to_float;
  activity ← getitem profile "activity";
  mode ← getitem profile "mode";
  goal_weight ← (if given goal_w then Some <$> to_float goal_w else Ok None);
  deadline_days ← (if given deadline then Some <$> to_int deadline else Ok None);
  call_build_plan sex age height_cm weight_kg activity mode
                  goal_weight deadline_days.

(** Assignments to the keys of the state dictionary. *)
Definition set_profile (state : Session) (p : gmap string pyval) : Session :=
  {| profile := p; history := history state;
     stage := stage state; onboard_idx := onboard_idx state |}.

Definition set_history (state : Session) (h : list Core.Entry) : Session :=
  {| profile := profile state; history := h;
     stage := stage state; onboard_idx := onboard_idx state |}.

Definition set_stage (state : Session) (s : string) : Session :=
  {| profile := profile state; history := history state;
     stage := s; onboard_idx := onboard_idx state |}.

Definition set_onboard_idx (state : Session) (i : Z) : Session :=
  {| profile := profile state; history := history state;
     stage := stage state; onboard_idx := i |}.

(** An exception that no [try] of [callback] encloses leaves the handler. *)
Definition uncaught (r : result outcome) : outcome :=
  match r with
  | Ok o => o
  | Raise e => Raised e
  end.

(** [start] *)
Definition cmd_start (state : Session) : outcome :=
  let state := set_stage state "onboarding" in
  let state := set_onboard_idx state 0 in
  uncaught (
    kq ← Py.index ONBOARD_KEYS (onboard_idx state);
    pb ← Core.progress_bar 0 (Py.len ONBOARD_KEYS) 10;
    Ok (Replied (OnboardingStarted pb (snd kq)) (Some state))).

(** [plan] *)
Definition cmd_plan (state : Session) : outcome :=
  match (_ ← Core.validate_profile (profile state);
         format_plan (profile state)) with
  | Ok plan => Replied (PlanText plan) None
  | Raise e => Replied (ProfileIncomplete e) None
  end.

(** [log <number>] *)
Definition cmd_log (now : Py.datetime) (state : Session) (low : string)
  : outcome :=
  match (Py.index (Py.split low) 1 ≫= float_str) with
  | Raise e => Replied (LogFailed e) None
  | Ok w =>
      let state :=
        set_history state
          (history state ++ [Core.mkEntry now (Py.round2 w)]) in
      let hist := history state in
      let simple_hist := simple hist in
      match (mode ← or_str (default (VStr "recomp") (profile state !! "mode"));
             Core.suggest_after_log simple_hist mode 7) with
      | Ok s => Replied (Logged w s) (Some state)
      | Raise e => Replied (LogFailed e) (Some state)
      end
  end.

(** [history] *)
Definition cmd_history (state : Session) : outcome :=
  let hist := history state in
  match hist with
  | [] => Replied NoHistory None
  | _ =>
      let simple := simple hist in
      uncaught (
        s7 ← Core.summarise_history simple 7;
        s30 ← Core.summarise_history simple 30;
        Ok (Replied (HistoryText (shown s7) (shown s30)) None))
  end.

(** [guide] *)
Definition cmd_guide (state : Session) : outcome :=
  if negb (truthy (get (profile state) "mode"))
  then Replied GuideNeedsProfile None
  else uncaught (
    mode ← or_str (get (profile state) "mode");
    Ok (Replied (Guide (guide_text mode)) None)).

(** [profile set <key> <value>] *)
Definition coerce (key value : string) : result pyval :=
  if Py.mem key ["age"] then VInt <$> int_str value
  else if Py.mem key ["height_cm"; "weight_kg"; "goal_weight"]
       then VFloat <$> float_str value
  else Ok (VStr value).

Definition cmd_profile_set (state : Session) (text : string) : outcome :=
  let parts := Py.split text in
  match (key ← Py.index parts 2;
         value ← Py.index parts 3;
         value ← coerce key value;
         Ok (key, value)) with
  | Ok (key, value) =>
      let state := set_profile state (<[key := value]> (profile state)) in
      Replied (ProfileUpdated key value) (Some state)
  | Raise e => Replied ProfileSetUsage None
  end.

(** The answer to one onboarding question: a rejection with its re-prompt,
    or the profile with the answer stored. *)
Inductive answer : Type :=
| Rejected (text : string)
| Stored (p : gmap string pyval).

Definition onboard_answer (key val : string) (p : gmap string pyval)
  : result answer :=
  if String.eqb key "sex" then
    if negb (Py.mem (Py.lower val) ["male"; "female"])
    then Ok (Rejected REPROMPT_SEX)
    else Ok (Stored (<["sex" := VStr (Py.lower val)]> p))
  else if String.eqb key "age" then
    n ← int_str val; Ok (Stored (<["age" := VInt n]> p))
  else if String.eqb key "height_cm" then
    x ← float_str val; Ok (Stored (<["height_cm" := VFloat x]> p))
  else if String.eqb key "weight_kg" then
    x ← float_str val; Ok (Stored (<["weight_kg" := VFloat x]> p))
  else if String.eqb key "activity" then
    if negb (Py.mem val
               ["sedentary"; "light"; "moderate"; "active"; "very_active"])
    then Ok (Rejected REPROMPT_ACTIVITY)
    else Ok (Stored (<["activity" := VStr val]> p))
  else if String.eqb key "mode" then
    if negb (Py.mem (Py.lower val) ["cut"; "recomp"; "bulk"])
    then Ok (Rejected REPROMPT_MODE)
    else Ok (Stored (<["mode" := VStr (Py.lower val)]> p))
  else if String.eqb key "goal_weight" then
    if String.eqb (Py.lower val) "skip"
    then Ok (Stored (<["goal_weight" := VNone]> p))
    else x ← float_str val; Ok (Stored (<["goal_weight" := VFloat x]> p))
  else if String.eqb key "deadline_days" then
    if String.eqb (Py.lower val) "skip"
    then Ok (Stored (<["deadline_days" := VNone]> p))
    else n ← int_str val; Ok (Stored (<["deadline_days" := VInt n]> p))
  else Ok (Stored p).

(** The onboarding flow. *)
Definition onboarding_step (state : Session) (text : string) : outcome :=
  let idx := onboard_idx state in
  uncaught (
    kp ← Py.index ONBOARD_KEYS idx;
    let key := fst kp in
    let val := Py.strip text in
    a ← onboard_answer key val (profile state);
    match a with
    | Rejected msg => Ok (Replied (Reprompt msg) None)
    | Stored p =>
        let state := set_profile state p in
        let idx := idx + 1 in
        let state := set_onboard_idx state idx in
        let done := Z.min idx (Py.len ONBOARD_KEYS) in
        if Py.len ONBOARD_KEYS <=? idx then
          let state := set_stage state "idle" in
          match (_ ← Core.validate_profile (profile state);
                 pb ← Core.progress_bar done (Py.len ONBOARD_KEYS) 10;
                 plan ← format_plan (profile state);
                 Ok (OnboardingDone pb plan)) with
          | Ok msg => Ok (Replied msg (Some state))
          | Raise e => Ok (Replied (OnboardingIncomplete e) (Some state))
          end
        else
          pb ← Core.progress_bar done (Py.len ONBOARD_KEYS) 10;
          q ← Py.index ONBOARD_KEYS idx;
          Ok (Replied (NextQuestion pb (snd q)) (Some state))
    end).

(** The body of the event loop of [callback] for one text message. *)
Definition handle (now : Py.datetime) (state : Session) (message_text : string)
  : outcome :=
  let text := Py.strip message_text in
  let low := Py.lower text in
  if Py.mem low ["help"; "ヘルプ"] then Replied Help None
  else if Py.mem low ["reset"; "リセット"] then
    Replied ResetDone (Some initial_state)
  else if Py.mem low ["start"; "開始"] then cmd_start state
  else if String.eqb low "plan" then cmd_plan state
  else if Py.startswith low "log " then cmd_log now state low
  else if String.eqb low "history" then cmd_history state
  else if String.eqb low "guide" then cmd_guide state
  else if Py.startswith low "profile show" then
    Replied (ProfileShown (profile state)) None
  else if Py.startswith low "profile set " then cmd_profile_set state text
  else if String.eqb (stage state) "onboarding" then onboarding_step state text
  else Replied CommandNotFound None.

(** The state the next event loads: the one saved, if any. *)
Definition next_state (state : Session) (o : outcome) : Session :=
  match o with
  | Replied _ (Some saved) => saved
  | _ => state
  end.

(** A conversation: the events of one user, handled one after the other. *)
Fixpoint run (now : Py.datetime) (state : Session) (texts : list string)
  : Session * list outcome :=
  match texts with
  | [] => (state, [])
  | t :: texts' =>
      let o := handle now state t in
      let '(final, os) := run now (next_state state o) texts' in
      (final, o :: os)
  end.

End Builtins.

(** *** The ASCII fragment of [int(s)] and [float(s)]

    Decimal digits with single underscores between them, an optional sign,
    surrounding white space; for [float] a fraction and an exponent too.
    Digits of other scripts and the literals [inf] and [nan], which denote
    no rational, are outside the fragment. *)

Definition digit_of (c : ascii) : option Z :=
  let n := nat_of_ascii c in
  if ((48 <=? n)%nat && (n <=? 57)%nat)%bool
  then Some (Z.of_nat (n - 48)) else None.

(** Reads a run of digits: the value, the number of digits read and the
    rest.  [prev] tells that the last character read was a digit. *)
Fixpoint digits (l : list ascii) (acc : Z) (n : nat) (prev : bool)
  : option (Z * nat * list ascii) :=
  match l with
  | [] => Some (acc, n, [])
  | c :: l' =>
      match digit_of c with
      | Some d => digits l' (10 * acc + d) (S n) true
      | None =>
          if Ascii.eqb c "_" then
            match l' with
            | c' :: _ =>
                if prev && bool_decide (is_Some (digit_of c'))
                then digits l' acc n false
                else None
            | [] => None
            end
          else Some (acc, n, l)
      end
  end.

(** An optional sign: [true] for a minus. *)
Definition sign (l : list ascii) : bool * list ascii :=
  match l with
  | c :: l' =>
      if Ascii.eqb c "-" then (true, l')
      else if Ascii.eqb c "+" then (false, l')
      else (false, l)
  | [] => (false, [])
  end.

Definition ascii_int (s : string) : option Z :=
  let '(neg, l) := sign (list_ascii_of_string (Py.strip s)) in
  match digits l 0 0 false with
  | Some (v, S _, []) => Some (if neg then - v else v)
  | _ => None
  end.

(** [10 ** e] as a float. *)
Definition pow10 (e : Z) : Q := (10 ^ e)%Q.

Definition exponent (l : list ascii) : option Z :=
  match l with
  | [] => Some 0
  | c :: l' =>
      if Ascii.eqb c "e" || Ascii.eqb c "E" then
        let '(neg, l'') := sign l' in
        match digits l'' 0 0 false with
        | Some (v, S _, []) => Some (if neg then - v else v)
        | _ => None
        end
      else None
  end.

Definition ascii_float (s : string) : option Q :=
  let '(neg, l) := sign (list_ascii_of_string (Py.strip s)) in
  '(ip, ni, l) ← digits l 0 0 false;
  '(fp, nf, l) ←
    match l with
    | c :: l' => if Ascii.eqb c "." then digits l' 0 0 false
                 else Some (0, 0%nat, l)
    | [] => Some (0, 0%nat, [])
    end;
  if (ni + nf =? 0)%nat then None
  else
    e ← exponent l;
    let m := (inject_Z ip + inject_Z fp / pow10 (Z.of_nat nf))%Q in
    let v := (m * pow10 e)%Q in
    Some (if neg then - v else v)%Q.

End App.

(** ** The vocabulary of the specification *)

Module Spec.

Local Open Scope Q_scope.


(** A valid activity level: a key of the factor table. *)
Definition valid_activity (activity : string) : Prop :=
  In activity (map fst Core.factors).

(** The raw daily delta: (goal_weight - weight_kg) * 7700 / deadline_days. *)
Definition raw_daily (goal_weight weight_kg : Q) (deadline_days : Z) : Q :=
  (goal_weight - weight_kg) * 7700 / inject_Z deadline_days.






(** daily_change = (last.weight - first.weight) / max(days_between, 1) *)
Definition daily_change (first last : Core.Entry) : Q :=
  (Core.weight last - Core.weight first)
  / inject_Z (Z.max (Py.sub_days (Core.date last) (Core.date first)) 1).

End Spec.

(** ** Invariants of the stored state *)

Module Inv.

(** The shape of the states the handler itself stores: while the stage is
    onboarding the index points at one of the questions, and the mode of
    the profile, where present, is a string. *)
Definition well_formed (state : App.Session) : Prop :=
  (App.stage state = "onboarding" ->
   (0 <= App.onboard_idx state < Py.len App.ONBOARD_KEYS)%Z) /\
  (forall v, App.profile state !! "mode" = Some v ->
     exists s, v = App.VStr s).

(** The fields whose onboarding answer is parsed as a number. *)
Definition numeric_keys : list string :=
  ["age"; "height_cm"; "weight_kg"; "goal_weight"; "deadline_days"].

(** The state an outcome hands to [save_state], if any. *)
Definition saved (o : App.outcome) : option App.Session :=
  match o with
  | App.Replied _ s => s
  | App.Raised _ => None
  end.

(** An outcome is benign when it is a reply, or the [ValueError] of a
    number parse. *)
Definition benign (o : App.outcome) : Prop :=
  match o with
  | App.Replied _ _ => True
  | App.Raised e => exists msg, e = ValueError msg
  end.

End Inv.

(** * Properties *)

(** ** Numbers *)

Lemma Qltb_lt (a b : Q) : Py.Qltb a b = true <-> (a < b)%Q.
Proof.
  unfold Py.Qltb. rewrite negb_true_iff.
  split; intros H.
  - apply Qnot_le_lt. intros Hle. apply Qle_bool_iff in Hle. congruence.
  - apply not_true_is_false. intros Hle. apply Qle_bool_iff in Hle.
    apply (Qlt_not_le _ _ H Hle).
Qed.

Lemma Qltb_ge (a b : Q) : Py.Qltb a b = false <-> (b <= a)%Q.
Proof.
  unfold Py.Qltb. rewrite negb_false_iff. apply Qle_bool_iff.
Qed.

(** [round] never leaves the two integers around its argument. *)
Lemma round_cases (x : Q) :
  Py.round x = Qfloor x \/
  (Py.round x = Qfloor x + 1 /\ (inject_Z (Qfloor x) + (1 # 2) <= x)%Q).
Proof.
  unfold Py.round.
  destruct (Py.Qltb (x - inject_Z (Qfloor x)) (1 # 2)) eqn:H1; [by left|].
  apply Qltb_ge in H1.
  assert (inject_Z (Qfloor x) + (1 # 2) <= x)%Q as Hx by lra.
  destruct (Py.Qltb (1 # 2) (x - inject_Z (Qfloor x))); [by right|].
  destruct (Z.even (Qfloor x)); [by left | by right].
Qed.


Lemma round_lower (x : Q) (n : Z) : (inject_Z n <= x)%Q -> n <= Py.round x.
Proof.
  intros Hx.
  assert (n <= Qfloor x) as Hf.
  { rewrite <- (Qfloor_Z n). by apply Qfloor_resp_le. }
  destruct (round_cases x) as [-> | [-> _]]; lia.
Qed.

(** ** The metabolic calculator *)




Lemma truediv_pos (a : Q) (d : Z) :
  0 < d -> Py.truediv a (inject_Z d) = Ok (a / inject_Z d)%Q.
Proof.
  intros Hd. unfold Py.truediv.
  destruct (Qeq_bool (inject_Z d) 0) eqn:E; [|done].
  apply Qeq_bool_iff in E. unfold Qeq in E. simpl in E. lia.
Qed.

(** The capped value lies in the safe range. *)
Lemma cap_range (raw : Q) :
  (-750 <= Py.max (Py.min raw 500) (-750) <= 500)%Q.
Proof.
  unfold Py.max, Py.min.
  destruct (Py.Qltb 500 raw) eqn:E1.
  - destruct (Py.Qltb 500 (-750)) eqn:E2; [discriminate E2|]. split; lra.
  - apply Qltb_ge in E1.
    destruct (Py.Qltb raw (-750)) eqn:E2.
    + split; lra.
    + apply Qltb_ge in E2. split; lra.
Qed.

(** The cap changes the raw value by more than the tolerance exactly when
    the raw value lies more than the tolerance outside the safe range. *)
Lemma cap_changes (raw : Q) :
  Py.Qltb 0.000001 (Qabs (raw - Py.max (Py.min raw 500) (-750))) = true <->
  (raw < -750 - 0.000001 \/ 500 + 0.000001 < raw)%Q.
Proof.
  rewrite Qltb_lt. unfold Py.max, Py.min.
  destruct (Py.Qltb 500 raw) eqn:E1.
  - apply Qltb_lt in E1.
    destruct (Py.Qltb 500 (-750)) eqn:E2; [discriminate E2|].
    rewrite Qabs_pos by lra. split; [intros H; right | intros [H | H]]; lra.
  - apply Qltb_ge in E1.
    destruct (Py.Qltb raw (-750)) eqn:E2.
    + apply Qltb_lt in E2. rewrite Qabs_neg by lra.
      split; [intros H; left | intros [H | H]]; lra.
    + apply Qltb_ge in E2.
      assert (raw - raw == 0)%Q as -> by ring.
      rewrite Qabs_pos by lra. split; [intros H | intros [H | H]]; lra.
Qed.


(** What [deadline_delta] returns when goal and deadline are given. *)
Lemma deadline_delta_given (weight_kg goal_weight : Q) (deadline_days : Z) :
  0 < deadline_days ->
  let raw := Spec.raw_daily goal_weight weight_kg deadline_days in
  let capped := Py.max (Py.min raw 500) (-750) in
  Core.deadline_delta weight_kg (Some goal_weight) (Some deadline_days)
  = Ok (capped,
        if Py.Qltb 0.000001 (Qabs (raw - capped))
        then [Core.cap_note] else []).
Proof.
  intros Hd. unfold Core.deadline_delta.
  apply Z.ltb_lt in Hd as Hb. rewrite Hb.
  rewrite truediv_pos by done. reflexivity.
Qed.



(** C2 (as amended): calculate_bmr("male", 70, 175, 30) returns 1648.75; for
    every weight, height and age the male value is
    10*weight + 6.25*height - 5*age + 5 rounded to 2 decimals, and the female
    value has -161 in place of +5. *)
Theorem C2_bmr_mifflin_st_jeor :
  (exists v, Core.calculate_bmr "male" 70 175 30 = Ok v /\ (v == 1648.75)%Q) /\
  (forall (w h : Q) (a : Z),
     Core.calculate_bmr "male" w h a
     = Ok (Py.round2 (10 * w + 6.25 * h - 5 * inject_Z a + 5)%Q)) /\
  (forall (w h : Q) (a : Z),
     Core.calculate_bmr "female" w h a
     = Ok (Py.round2 (10 * w + 6.25 * h - 5 * inject_Z a + -161)%Q)).
Proof.
  split; [|split].
  - eexists. split; reflexivity.
  - reflexivity.
  - reflexivity.
Qed.

(** C2 (as stated) fails: the value returned for ("male", 70, 175, 30) is
    not 1673.75. *)
Lemma C2_counterexample :
  ~ (exists v, Core.calculate_bmr "male" 70 175 30 = Ok v /\ (v == 1673.75)%Q).
Proof.
  intros [v [Hv Heq]]. vm_compute in Hv. injection Hv as <-.
  vm_compute in Heq. discriminate Heq.
Qed.






(** ** Indexing *)

Lemma index_first {A : Type} (a : A) (l : list A) : Py.index (a :: l) 0 = Ok a.
Proof.
  unfold Py.index, Py.len. simpl length.
  replace (0 <? 0) with false by done.
  replace ((0 <? 0) || (Z.of_nat (S (length l)) <=? 0))%bool with false; [done|].
  symmetry. apply orb_false_iff. split; [done|]. apply Z.leb_gt. lia.
Qed.

Lemma index_last {A : Type} (l : list A) (z : A) :
  Py.index (l ++ [z]) (-1) = Ok z.
Proof.
  unfold Py.index, Py.len. rewrite length_app. simpl length.
  replace (-1 <? 0) with true by done.
  replace (Z.of_nat (length l + 1) + -1) with (Z.of_nat (length l)) by lia.
  replace ((Z.of_nat (length l) <? 0)
           || (Z.of_nat (length l + 1) <=? Z.of_nat (length l)))%bool
    with false.
  - rewrite Nat2Z.id, nth_error_app2 by lia.
    by replace (length l - length l)%nat with 0%nat by lia.
  - symmetry. apply orb_false_iff. split; [apply Z.ltb_ge | apply Z.leb_gt]; lia.
Qed.

Lemma index_last_cons {A : Type} (a : A) (l : list A) :
  exists z, Py.index (a :: l) (-1) = Ok z /\ last (a :: l) = Some z.
Proof.
  destruct (exists_last (l := a :: l)) as (l' & z & ->); [done|].
  exists z. split; [apply index_last | apply last_snoc].
Qed.

(** ** The trend analyser *)

Lemma sub_days_self (d : Py.datetime) : Py.sub_days d d = 0.
Proof. unfold Py.sub_days. by rewrite Z.sub_diag. Qed.


#[global] Instance Qltb_proper : Proper (Qeq ==> Qeq ==> eq) Py.Qltb.
Proof.
  intros a a' Ha b b' Hb. unfold Py.Qltb. f_equal.
  destruct (Qle_bool b a) eqn:E; symmetry.
  - apply Qle_bool_iff. rewrite <- Ha, <- Hb. by apply Qle_bool_iff.
  - apply not_true_is_false. intros E'. apply Qle_bool_iff in E'.
    rewrite <- Ha, <- Hb in E'. apply Qle_bool_iff in E'. congruence.
Qed.

#[global] Instance round_proper : Proper (Qeq ==> eq) Py.round.
Proof.
  intros x y Hxy. unfold Py.round.
  rewrite (Qfloor_comp x y Hxy).
  assert (x - inject_Z (Qfloor y) == y - inject_Z (Qfloor y))%Q as Heq
    by (by rewrite Hxy).
  rewrite (Qltb_proper _ _ Heq (1 # 2) (1 # 2) (Qeq_refl _)).
  by rewrite (Qltb_proper (1 # 2) (1 # 2) (Qeq_refl _) _ _ Heq).
Qed.


(** A history whose last entry passes the window filter has a full
    summary, and the summary counts the entries of the window. *)
Lemma summarise_history_last (history : list Core.Entry) (z : Core.Entry)
    (days : Z) :
  0 <= days ->
  exists s,
    Core.summarise_history (history ++ [z]) days = Ok (Core.Full s) /\
    1 <= Core.count s.
Proof.
  intros Hdays. unfold Core.summarise_history.
  destruct (history ++ [z]) as [|e0 l0] eqn:Hh;
    [by destruct history|]. rewrite <- Hh. clear e0 l0 Hh.
  rewrite index_last. simpl.
  rewrite List.filter_app. simpl.
  rewrite sub_days_self.
  replace (0 <=? days) with true by (symmetry; by apply Z.leb_le).
  set (w := List.filter _ history).
  destruct (w ++ [z]) as [|a l] eqn:Hw; [by destruct w|].
  simpl map.
  destruct (index_last_cons (Core.weight a) (map Core.weight l))
    as (wz & -> & _).
  destruct (index_last_cons a l) as (z' & -> & _).
  rewrite !index_first. simpl.
  eexists. split; [reflexivity|]. simpl. unfold Py.len. simpl length. lia.
Qed.

(** C9: for a non-empty history and a window of at least 0 days,
    summarise_history returns a full summary with a count of at least 1:
    the last entry is 0 days from the cutoff, so it passes the window
    filter and the second empty-summary branch is not taken. *)
Theorem C9_nonempty_history_counts (history : list Core.Entry) (days : Z) :
  history <> [] -> 0 <= days ->
  (forall z, last history = Some z ->
     (Py.sub_days (Core.date z) (Core.date z) <=? days) = true) /\
  exists s,
    Core.summarise_history history days = Ok (Core.Full s) /\
    Core.get_count (Core.Full s) = Core.count s /\
    1 <= Core.count s.
Proof.
  intros Hne Hdays. split.
  - intros z _. rewrite sub_days_self. by apply Z.leb_le.
  - destruct (exists_last Hne) as (h & z & ->).
    destruct (summarise_history_last h z days Hdays) as (s & Hs & Hc).
    by exists s.
Qed.

Lemma C9_nonempty_history_counts_witness :
  (forall z, last [Core.mkEntry 0 80; Core.mkEntry (40 * Py.day_us) 79] = Some z ->
     (Py.sub_days (Core.date z) (Core.date z) <=? 0) = true) /\
  exists s,
    Core.summarise_history
      [Core.mkEntry 0 80; Core.mkEntry (40 * Py.day_us) 79] 0
    = Ok (Core.Full s) /\
    Core.get_count (Core.Full s) = Core.count s /\
    1 <= Core.count s.
Proof.
  apply (C9_nonempty_history_counts
           [Core.mkEntry 0 80; Core.mkEntry (40 * Py.day_us) 79] 0).
  - discriminate.
  - lia.
Defined.









(** ** The progress bar *)




(** ** The conversation handler *)




Lemma index_none {A : Type} (l : list A) (n : nat) :
  nth_error l n = None -> Py.index l (Z.of_nat n) = Raise IndexError.
Proof.
  intros Hn. unfold Py.index, Py.len.
  assert (length l <= n)%nat as Hge by (by apply nth_error_None).
  assert ((Z.of_nat n <? 0) = false) as E1 by (apply Z.ltb_ge; lia).
  assert ((Z.of_nat (length l) <=? Z.of_nat n) = true) as E2
    by (apply Z.leb_le; lia).
  cbv zeta. by rewrite !E1, E2.
Qed.

Section Handler.

Variable int_of_str : string -> option Z.
Variable float_of_str : string -> option Q.



End Handler.

(** *** A dispatched [profile set] text always carries a key token *)













(** *** The profile keeps its types *)

Ltac unfold_result :=
  unfold App.uncaught, mbind, result_bind, fmap, result_fmap in *.



Section Typed.

Variable int_of_str : string -> option Z.
Variable float_of_str : string -> option Q.





End Typed.




(** C1 (code at the failing input): in stage onboarding at the age question
    (onboard_idx = 1), the answer "abc" is no top-level command and fails
    the parse of its field, and the handler neither re-prompts nor saves:
    the ValueError of int() leaves it. *)
Theorem C1_numeric_answer_raises (now : Py.datetime)
    (profile : gmap string App.pyval) (history : list Core.Entry) :
  App.ascii_int "abc" = None /\
  App.handle App.ascii_int App.ascii_float now
    (App.mkSession profile history "onboarding" 1) "abc"
  = App.Raised (ValueError "invalid literal for int() with base 10").
Proof. split; reflexivity. Qed.

(** *** Which onboarding answers are re-prompted and which raise *)

Ltac eval_key :=
  match goal with
  | |- context [Py.index App.ONBOARD_KEYS ?i] =>
      let v := eval vm_compute in (Py.index App.ONBOARD_KEYS i) in
      change (Py.index App.ONBOARD_KEYS i) with v
  end;
  cbn [mbind result_bind fst]; unfold App.onboard_answer.

Section Onboarding.

Variable int_of_str : string -> option Z.
Variable float_of_str : string -> option Q.

(** sex, activity and mode: an answer outside the set is re-prompted and
    nothing is saved. *)
Lemma onboarding_enum_reprompts (state : App.Session) (text : string) :
  (App.onboard_idx state = 0 /\
   Py.mem (Py.lower (Py.strip text)) ["male"; "female"] = false) \/
  (App.onboard_idx state = 4 /\
   Py.mem (Py.strip text)
     ["sedentary"; "light"; "moderate"; "active"; "very_active"] = false) \/
  (App.onboard_idx state = 5 /\
   Py.mem (Py.lower (Py.strip text)) ["cut"; "recomp"; "bulk"] = false) ->
  exists msg,
    App.onboarding_step int_of_str float_of_str state text
    = App.Replied (App.Reprompt msg) None.
Proof.
  unfold App.onboarding_step.
  intros [[-> H] | [[-> H] | [-> H]]];
    eval_key; cbn -[Py.mem Py.lower Py.strip]; rewrite H; simpl; eauto.
Qed.

(** age, height_cm, weight_kg, goal_weight and deadline_days: an answer
    that is no number (and, for the two optional fields, not "skip") raises
    out of the handler. *)
Lemma onboarding_numeric_raises (state : App.Session) (text : string) :
  (App.onboard_idx state = 1 /\ int_of_str (Py.strip text) = None) \/
  ((App.onboard_idx state = 2 \/ App.onboard_idx state = 3) /\
   float_of_str (Py.strip text) = None) \/
  (App.onboard_idx state = 6 /\
   String.eqb (Py.lower (Py.strip text)) "skip" = false /\
   float_of_str (Py.strip text) = None) \/
  (App.onboard_idx state = 7 /\
   String.eqb (Py.lower (Py.strip text)) "skip" = false /\
   int_of_str (Py.strip text) = None) ->
  exists msg,
    App.onboarding_step int_of_str float_of_str state text
    = App.Raised (ValueError msg).
Proof.
  unfold App.onboarding_step.
  intros [[-> H] | [[[-> | ->] H] | [(-> & Hs & H) | (-> & Hs & H)]]];
    eval_key; cbn -[Py.lower Py.strip App.int_str App.float_str];
    rewrite ?Hs; unfold App.int_str, App.float_str; rewrite H; simpl; eauto.
Qed.

End Onboarding.

(** The enumerated fields do what C1 asks: an answer outside the set is
    re-prompted and nothing is saved. *)
Example reprompt_sex (now : Py.datetime) (profile : gmap string App.pyval)
    (history : list Core.Entry) :
  App.handle App.ascii_int App.ascii_float now
    (App.mkSession profile history "onboarding" 0) "other"
  = App.Replied (App.Reprompt App.REPROMPT_SEX) None.
Proof. reflexivity. Qed.

(** A whole onboarding from the initial state: eight answers in order, the
    two optional ones skipped, reach stage idle with onboard_idx = 8 and a
    plan. *)
Example onboarding_run : exists final pb plan os,
  App.run App.ascii_int App.ascii_float 0 App.initial_state
    ["start"; "Male"; "30"; "175"; "70"; "sedentary"; "cut"; "skip"; "skip"]
  = (final, os) /\
  last os = Some (App.Replied (App.OnboardingDone pb plan) (Some final)) /\
  App.stage final = "idle" /\
  App.onboard_idx final = 8 /\
  pb = "【██████████】 8/8" /\
  Core.target_kcal plan = 1478 /\
  Core.delta_kcal plan = -500.
Proof.
  eexists _, _, _, _. split; [vm_compute; reflexivity|].
  repeat split; reflexivity.
Qed.

(** * Further properties of the code *)

(** ** Rounding *)




Lemma round_Z (k : Z) : Py.round (inject_Z k) = k.
Proof.
  unfold Py.round. rewrite Qfloor_Z.
  assert (inject_Z k - inject_Z k == 0)%Q as Heq by ring.
  by rewrite (Qltb_proper _ _ Heq (1 # 2) (1 # 2) (Qeq_refl _)).
Qed.

(** [round] is monotone. *)
Lemma round_mono (x y : Q) : (x <= y)%Q -> Py.round x <= Py.round y.
Proof.
  intros Hxy.
  assert (Qfloor x <= Qfloor y) as Hf by (by apply Qfloor_resp_le).
  destruct (Z.eq_dec (Qfloor x) (Qfloor y)) as [Heq | Hne].
  - unfold Py.round. rewrite Heq.
    destruct (Py.Qltb (x - inject_Z (Qfloor y)) (1 # 2)) eqn:X1.
    + destruct (Py.Qltb (y - inject_Z (Qfloor y)) (1 # 2)); [lia|].
      destruct (Py.Qltb (1 # 2) (y - inject_Z (Qfloor y))); [lia|].
      destruct (Z.even (Qfloor y)); lia.
    + apply Qltb_ge in X1.
      destruct (Py.Qltb (y - inject_Z (Qfloor y)) (1 # 2)) eqn:Y1;
        [apply Qltb_lt in Y1; lra|].
      destruct (Py.Qltb (1 # 2) (x - inject_Z (Qfloor y))) eqn:X2.
      * apply Qltb_lt in X2.
        destruct (Py.Qltb (1 # 2) (y - inject_Z (Qfloor y))) eqn:Y2; [lia|].
        apply Qltb_ge in Y2. lra.
      * destruct (Py.Qltb (1 # 2) (y - inject_Z (Qfloor y))); [|lia].
        destruct (Z.even (Qfloor y)); lia.
  - destruct (round_cases x) as [-> | [-> _]];
      destruct (round_cases y) as [-> | [-> _]]; lia.
Qed.

Lemma round2_mono (x y : Q) : (x <= y)%Q -> (Py.round2 x <= Py.round2 y)%Q.
Proof.
  intros Hxy. unfold Py.round2.
  apply Qmult_le_compat_r; [|done].
  rewrite <- Zle_Qle. apply round_mono. lra.
Qed.

(** [round(x, 2)] leaves a value that has two decimals alone. *)
Lemma round2_idem (x : Q) : (Py.round2 (Py.round2 x) == Py.round2 x)%Q.
Proof.
  unfold Py.round2 at 1.
  assert (Py.round2 x * 100 == inject_Z (Py.round (x * 100)))%Q as Heq
    by (unfold Py.round2; field).
  by rewrite (round_proper _ _ Heq), round_Z.
Qed.

(** ** The metabolic calculator: errors and bounds *)







(** The two outcomes of [activity_factor]. *)
Lemma activity_factor_cases (activity : string) :
  match Core.activity_factor activity with
  | Ok f => Spec.valid_activity activity /\ (1.2 <= f <= 1.9)%Q
  | Raise e =>
      ~ Spec.valid_activity activity /\
      e = ValueError
            "activity must be one of: sedentary, light, moderate, active, very_active"
  end.
Proof.
  unfold Core.activity_factor, Core.factors_get, Spec.valid_activity.
  cbn [find Core.factors fst snd map].
  repeat match goal with
         | |- context [String.eqb ?k ?a] =>
             is_var a;
             destruct (String.eqb_spec k a) as [E | ?];
             [simpl; split; [tauto | split; lra] |]
         end.
  simpl. split; [|done]. intros H. intuition.
Qed.

(** X3: activity_factor knows the five levels, spelled in lower case: it returns
    a factor between 1.2 and 1.9 for them and raises ValueError for every
    other string. *)
Theorem activity_factor_table (activity : string) :
  match Core.activity_factor activity with
  | Ok f => Spec.valid_activity activity /\ (1.2 <= f <= 1.9)%Q
  | Raise e =>
      ~ Spec.valid_activity activity /\
      e = ValueError
            "activity must be one of: sedentary, light, moderate, active, very_active"
  end.
Proof.
  apply activity_factor_cases.
Qed.

(** What a returned plan is made of. *)
Lemma build_plan_inv (sex : string) (age : Z) (height_cm weight_kg : Q)
    (activity mode : string) (goal_weight : option Q)
    (deadline_days : option Z) (p : Core.Plan) :
  Core.build_plan sex age height_cm weight_kg activity mode
                  goal_weight deadline_days = Ok p ->
  exists b f dn,
    Core.calculate_bmr sex weight_kg height_cm age = Ok b /\
    Core.activity_factor activity = Ok f /\
    Core.deadline_delta weight_kg goal_weight deadline_days = Ok dn /\
    let delta := Core.preset_delta (Py.lower (Py.str_or mode "recomp")) (fst dn) in
    Core.bmr p = b /\
    Core.tdee p = Py.round2 (b * f) /\
    Core.maintenance_kcal p = Py.round (Py.round2 (b * f)) /\
    Core.target_kcal p = Z.max (Py.round (Py.round2 (b * f) + delta)) 1200 /\
    Core.delta_kcal p = Py.round delta /\
    Core.mode p = Py.lower (Py.str_or mode "recomp") /\
    Core.protein_g p = Py.round (Py.max (2.0 * weight_kg) (1.6 * weight_kg)) /\
    Core.fat_g p = Py.round (Py.max (0.6 * weight_kg) 40) /\
    Core.carb_g p
    = Py.round
        (Py.max (inject_Z (Core.target_kcal p)
                 - (Py.max (2.0 * weight_kg) (1.6 * weight_kg) * 4
                    + Py.max (0.6 * weight_kg) 40 * 9)) 100 / 4) /\
    Core.notes p = snd dn.
Proof.
  unfold Core.build_plan, Core.calculate_tdee. intros H.
  destruct (Core.calculate_bmr sex weight_kg height_cm age) as [b|];
    [|discriminate H].
  destruct (Core.activity_factor activity) as [f|]; [|discriminate H].
  destruct (Core.deadline_delta weight_kg goal_weight deadline_days) as [dn|];
    [|discriminate H].
  cbn [mbind result_bind] in H. injection H as <-.
  exists b, f, dn. repeat split; reflexivity.
Qed.


Lemma max_ge_l (a b : Q) : (a <= Py.max a b)%Q.
Proof.
  unfold Py.max. destruct (Py.Qltb a b) eqn:E; [|lra].
  apply Qltb_lt in E. lra.
Qed.

Lemma max_ge_r (a b : Q) : (b <= Py.max a b)%Q.
Proof.
  unfold Py.max. destruct (Py.Qltb a b) eqn:E; [lra|].
  by apply Qltb_ge in E.
Qed.

Lemma calculate_bmr_rounded (sex : string) (weight_kg height_cm : Q) (age : Z)
    (b : Q) :
  Core.calculate_bmr sex weight_kg height_cm age = Ok b ->
  exists base, b = Py.round2 base.
Proof.
  unfold Core.calculate_bmr. destruct (negb _); [discriminate|].
  intros H. injection H as <-. eauto.
Qed.

(** X5: In a returned plan with a BMR of at least 0, the TDEE is at least the
    BMR. *)
Theorem plan_tdee_above_bmr (sex : string) (age : Z) (height_cm weight_kg : Q)
    (activity mode : string) (goal_weight : option Q)
    (deadline_days : option Z) (p : Core.Plan) :
  Core.build_plan sex age height_cm weight_kg activity mode
                  goal_weight deadline_days = Ok p ->
  (0 <= Core.bmr p)%Q ->
  (Core.bmr p <= Core.tdee p)%Q.
Proof.
  intros Hp Hb.
  destruct (build_plan_inv _ _ _ _ _ _ _ _ _ Hp)
    as (b & f & dn & Hbmr & Hf & _ & Hfields).
  cbv zeta in Hfields. destruct Hfields as (Eb & Et & _).
  rewrite Eb in *. rewrite Et.
  pose proof (activity_factor_cases activity) as Ha. rewrite Hf in Ha.
  destruct Ha as [_ [Hlo _]].
  destruct (calculate_bmr_rounded _ _ _ _ _ Hbmr) as [base ->].
  rewrite <- (round2_idem base) at 1.
  apply round2_mono. nra.
Qed.

Lemma plan_tdee_above_bmr_witness : exists p,
  Core.build_plan "male" 30 175 70 "light" "bulk" None None = Ok p /\
  (Core.bmr p <= Core.tdee p)%Q.
Proof.
  eexists. split; [reflexivity|].
  apply (plan_tdee_above_bmr "male" 30 175 70 "light" "bulk" None None).
  - reflexivity.
  - vm_compute. discriminate.
Defined.

(** X6: In every returned plan the fat target is at least 40 g and the
    carbohydrate target at least 25 g; for a weight of at least 0 the protein
    target is twice the weight, rounded. *)
Theorem plan_macro_floors (sex : string) (age : Z) (height_cm weight_kg : Q)
    (activity mode : string) (goal_weight : option Q)
    (deadline_days : option Z) (p : Core.Plan) :
  Core.build_plan sex age height_cm weight_kg activity mode
                  goal_weight deadline_days = Ok p ->
  40 <= Core.fat_g p /\
  25 <= Core.carb_g p /\
  ((0 <= weight_kg)%Q -> Core.protein_g p = Py.round (2 * weight_kg)).
Proof.
  intros Hp.
  destruct (build_plan_inv _ _ _ _ _ _ _ _ _ Hp)
    as (b & f & dn & _ & _ & _ & Hfields).
  cbv zeta in Hfields.
  destruct Hfields as (_ & _ & _ & _ & _ & _ & Epro & Efat & Ecarb & _).
  split; [|split].
  - rewrite Efat. apply round_lower. apply (max_ge_r (0.6 * weight_kg) 40).
  - rewrite Ecarb. apply round_lower.
    match goal with
    | |- (_ <= Py.max ?x 100 / 4)%Q => pose proof (max_ge_r x 100)
    end.
    change (inject_Z 25) with 25%Q.
    apply Qle_shift_div_l; [reflexivity | lra].
  - intros Hw. rewrite Epro. apply round_proper.
    unfold Py.max. destruct (Py.Qltb _ _) eqn:E; [|ring].
    apply Qltb_lt in E. lra.
Qed.

Lemma plan_macro_floors_witness : exists p,
  Core.build_plan "female" 30 160 50 "sedentary" "cut" None None = Ok p /\
  40 <= Core.fat_g p /\
  25 <= Core.carb_g p /\
  ((0 <= 50)%Q -> Core.protein_g p = Py.round (2 * 50)).
Proof.
  eexists. split; [reflexivity|].
  apply (plan_macro_floors "female" 30 160 50 "sedentary" "cut" None None).
  reflexivity.
Defined.

(** ** The daily delta: presets, targets and the note *)

Lemma Ok_inj {A : Type} (x y : A) : Ok x = Ok y -> x = y.
Proof. by intros [=]. Qed.

Lemma raw_daily_sign (goal_weight weight_kg : Q) (deadline_days : Z) :
  0 < deadline_days ->
  ((weight_kg < goal_weight)%Q ->
   (0 < Spec.raw_daily goal_weight weight_kg deadline_days)%Q) /\
  ((goal_weight < weight_kg)%Q ->
   (Spec.raw_daily goal_weight weight_kg deadline_days < 0)%Q) /\
  ((goal_weight == weight_kg)%Q ->
   (Spec.raw_daily goal_weight weight_kg deadline_days == 0)%Q).
Proof.
  intros Hd. unfold Spec.raw_daily.
  assert (0 < inject_Z deadline_days)%Q as Hq
    by (change 0%Q with (inject_Z 0); by rewrite <- Zlt_Qlt).
  repeat split; intros H.
  - apply Qlt_shift_div_l; [done | lra].
  - apply Qlt_shift_div_r; [done | lra].
  - rewrite H. field. intros E. rewrite E in Hq. by apply Qlt_irrefl in Hq.
Qed.

Lemma cap_zero (raw : Q) :
  (raw == 0)%Q ->
  (Py.max (Py.min raw 500) (-750) == 0)%Q /\
  Py.Qltb 0.000001 (Qabs (raw - Py.max (Py.min raw 500) (-750))) = false.
Proof.
  intros H. split.
  - pose proof (cap_range raw). unfold Py.max, Py.min in *.
    destruct (Py.Qltb 500 raw) eqn:E1; [apply Qltb_lt in E1; lra|].
    destruct (Py.Qltb raw (-750)) eqn:E2; [apply Qltb_lt in E2; lra | done].
  - apply not_true_is_false. rewrite cap_changes. lra.
Qed.

(** The delta of a plan without a usable target. *)
Lemma build_plan_presets (sex : string) (age : Z) (height_cm weight_kg : Q)
    (activity mode : string) (goal_weight : option Q)
    (deadline_days : option Z) (p : Core.Plan) :
  Core.build_plan sex age height_cm weight_kg activity mode
                  goal_weight deadline_days = Ok p ->
  goal_weight = None \/ deadline_days = None \/
  (exists d, deadline_days = Some d /\ d <= 0) \/
  (exists g, goal_weight = Some g /\ (g == weight_kg)%Q) ->
  Core.notes p = [] /\
  (Core.mode p = "cut" -> Core.delta_kcal p = -500) /\
  (Core.mode p = "bulk" -> Core.delta_kcal p = 300) /\
  (Core.mode p <> "cut" -> Core.mode p <> "bulk" -> Core.delta_kcal p = 0).
Proof.
  intros Hp Hno.
  destruct (build_plan_inv _ _ _ _ _ _ _ _ _ Hp)
    as (b & f & dn & _ & _ & Hdn & Hfields).
  cbv zeta in Hfields.
  destruct Hfields as (_ & _ & _ & _ & Ed & Em & _ & _ & _ & En).
  assert (snd dn = [] /\ (fst dn == 0)%Q) as [Hn Hz].
  { assert (forall d, d <= 0 -> (0 <? d) = false) as Hle
      by (intros d Hd; apply Z.ltb_ge; lia).
    destruct Hno as [-> | [-> | [(d & -> & Hd) | (g & -> & Hg)]]].
    - injection Hdn as <-. by split.
    - destruct goal_weight; injection Hdn as <-; by split.
    - destruct goal_weight; [|injection Hdn as <-; by split].
      unfold Core.deadline_delta in Hdn. rewrite (Hle d Hd) in Hdn.
      injection Hdn as <-. by split.
    - destruct deadline_days as [d|]; [|injection Hdn as <-; by split].
      destruct (Z.ltb_spec 0 d) as [Hd | Hd].
      + rewrite deadline_delta_given in Hdn by done.
        destruct (raw_daily_sign g weight_kg d Hd) as (_ & _ & Hraw).
        destruct (cap_zero _ (Hraw Hg)) as [Hc Hnote].
        rewrite Hnote in Hdn. injection Hdn as <-. by split.
      + unfold Core.deadline_delta in Hdn. rewrite (Hle d Hd) in Hdn.
        injection Hdn as <-. by split. }
  rewrite En, Ed, Em. split; [done|].
  unfold Core.preset_delta.
  assert (Qeq_bool (fst dn) 0 = true) as -> by (by apply Qeq_bool_iff).
  repeat split.
  - by intros ->.
  - by intros ->.
  - intros H1 H2.
    apply String.eqb_neq in H1, H2. by rewrite H1, H2.
Qed.

(** X7: Without a usable target (no goal weight, no deadline, a deadline of 0
    days or less, or a goal equal to the current weight) the plan has the
    preset of its mode as delta_kcal (-500 for cut, +300 for bulk, 0 for
    every other mode) and no note. *)
Theorem plan_mode_presets (sex : string) (age : Z) (height_cm weight_kg : Q)
    (activity mode : string) (goal_weight : option Q)
    (deadline_days : option Z) (p : Core.Plan) :
  Core.build_plan sex age height_cm weight_kg activity mode
                  goal_weight deadline_days = Ok p ->
  goal_weight = None \/ deadline_days = None \/
  (exists d, deadline_days = Some d /\ d <= 0) \/
  (exists g, goal_weight = Some g /\ (g == weight_kg)%Q) ->
  Core.notes p = [] /\
  (Core.mode p = "cut" -> Core.delta_kcal p = -500) /\
  (Core.mode p = "bulk" -> Core.delta_kcal p = 300) /\
  (Core.mode p <> "cut" -> Core.mode p <> "bulk" -> Core.delta_kcal p = 0).
Proof.
  apply build_plan_presets.
Qed.

Lemma plan_mode_presets_witness : exists p,
  Core.build_plan "male" 30 175 70 "light" "BULK" (Some 80%Q) (Some 0) = Ok p /\
  Core.notes p = [] /\
  (Core.mode p = "cut" -> Core.delta_kcal p = -500) /\
  (Core.mode p = "bulk" -> Core.delta_kcal p = 300) /\
  (Core.mode p <> "cut" -> Core.mode p <> "bulk" -> Core.delta_kcal p = 0).
Proof.
  eexists. split; [reflexivity|].
  apply (plan_mode_presets "male" 30 175 70 "light" "BULK"
           (Some 80%Q) (Some 0)).
  - reflexivity.
  - right. right. left. exists 0. split; [reflexivity | lia].
Defined.



(** X9: A plan carries the note on the safety cap only with a delta_kcal at one
    of the two bounds, 500 or -750. *)
Theorem plan_note_at_bound (sex : string) (age : Z) (height_cm weight_kg : Q)
    (activity mode : string) (goal_weight : option Q)
    (deadline_days : option Z) (p : Core.Plan) :
  Core.build_plan sex age height_cm weight_kg activity mode
                  goal_weight deadline_days = Ok p ->
  Core.notes p <> [] ->
  Core.notes p = [Core.cap_note] /\
  (Core.delta_kcal p = 500 \/ Core.delta_kcal p = -750).
Proof.
  intros Hp Hnote.
  destruct (build_plan_inv _ _ _ _ _ _ _ _ _ Hp)
    as (b & f & dn & _ & _ & Hdn & Hfields).
  cbv zeta in Hfields.
  destruct Hfields as (_ & _ & _ & _ & Ed & _ & _ & _ & _ & En).
  rewrite En in *. rewrite Ed. clear Ed En Hp.
  destruct goal_weight as [g|], deadline_days as [d|];
    try (injection Hdn as <-; done).
  destruct (Z.ltb_spec 0 d) as [Hd | Hd].
  2: { unfold Core.deadline_delta in Hdn.
       replace (0 <? d) with false in Hdn by (symmetry; apply Z.ltb_ge; lia).
       injection Hdn as <-. done. }
  rewrite deadline_delta_given in Hdn by done.
  apply Ok_inj in Hdn as <-. unfold fst, snd in *.
  set (raw := Spec.raw_daily g weight_kg d) in *.
  destruct (Py.Qltb 0.000001 _) eqn:E; [|done].
  split; [done|].
  apply cap_changes in E. unfold Py.max, Py.min.
  destruct E as [E | E].
  - destruct (Py.Qltb 500 raw) eqn:E1; [apply Qltb_lt in E1; lra|].
    destruct (Py.Qltb raw (-750)) eqn:E2;
      [by right | apply Qltb_ge in E2; lra].
  - destruct (Py.Qltb 500 raw) eqn:E1; [by left | apply Qltb_ge in E1; lra].
Qed.

Lemma plan_note_at_bound_witness : exists p,
  Core.build_plan "male" 30 175 70 "light" "cut" (Some 60%Q) (Some 30) = Ok p /\
  Core.notes p = [Core.cap_note] /\
  (Core.delta_kcal p = 500 \/ Core.delta_kcal p = -750).
Proof.
  eexists. split; [reflexivity|].
  apply (plan_note_at_bound "male" 30 175 70 "light" "cut"
           (Some 60%Q) (Some 30)).
  - reflexivity.
  - discriminate.
Defined.

(** ** The suggestion after a log *)

Lemma truediv_nonzero (a : Q) (d : Z) :
  d <> 0 -> Py.truediv a (inject_Z d) = Ok (a / inject_Z d)%Q.
Proof.
  intros Hd. unfold Py.truediv.
  destruct (Qeq_bool (inject_Z d) 0) eqn:E; [|done].
  apply Qeq_bool_iff in E. unfold Qeq in E. simpl in E. lia.
Qed.

Lemma or_one_nonzero (x : Z) : Core.or_one x <> 0.
Proof.
  unfold Core.or_one. destruct (x =? 0) eqn:E; [lia|].
  by apply Z.eqb_neq in E.
Qed.

(** The daily change of a window, as [suggest_after_log] computes it. *)
Lemma window_change (window : list Core.Entry) :
  exists dc,
    (if 2 <=? Py.len window
     then
       z ← Py.index window (-1);
       a ← Py.index window 0;
       Py.truediv (Core.weight z - Core.weight a)
         (inject_Z (Core.or_one (Py.sub_days (Core.date z) (Core.date a))))
     else Ok 0%Q) = Ok dc /\
    ((length window < 2)%nat -> dc = 0%Q) /\
    (forall a z, (2 <= length window)%nat ->
       head window = Some a -> last window = Some z ->
       dc = ((Core.weight z - Core.weight a)
             / inject_Z (Core.or_one
                           (Py.sub_days (Core.date z) (Core.date a))))%Q).
Proof.
  destruct (2 <=? Py.len window) eqn:E.
  - apply Z.leb_le in E. unfold Py.len in E.
    destruct window as [|a l]; [simpl in E; lia|].
    destruct (index_last_cons a l) as (z & -> & Hz).
    rewrite index_first. cbn [mbind result_bind].
    rewrite truediv_nonzero by apply or_one_nonzero.
    eexists. split; [reflexivity|]. split.
    + intros Hlt. simpl in *. lia.
    + intros a' z' _ Ha Hz'. cbn [head] in Ha. congruence.
  - apply Z.leb_gt in E. unfold Py.len in E.
    exists 0%Q. split; [done|]. split; [done|]. intros; lia.
Qed.

(** X10: suggest_after_log never raises: whatever the history (timestamps equal
    or out of order included), the mode and the window, it returns one of
    its nine messages, and the "keep logging" one exactly for the empty
    history. *)
Theorem suggest_after_log_total (history : list Core.Entry) (mode : string)
    (recent_window : Z) :
  exists msg,
    Core.suggest_after_log history mode recent_window = Ok msg /\
    In msg [Core.MSG_KEEP_LOGGING;
            Core.MSG_CUT_TOO_FAST; Core.MSG_CUT_GAINING; Core.MSG_CUT_GOOD;
            Core.MSG_BULK_TOO_FAST; Core.MSG_BULK_SLOW; Core.MSG_BULK_GOOD;
            Core.MSG_RECOMP_STABLE; Core.MSG_RECOMP_SWING] /\
    (msg = Core.MSG_KEEP_LOGGING <-> history = []).
Proof.
  unfold Core.suggest_after_log.
  destruct history as [|h hs] eqn:Hh.
  { eexists. split; [reflexivity|]. split; [by left | done]. }
  rewrite <- Hh.
  destruct (window_change (Py.slice_from history (- recent_window)))
    as (dc & -> & _).
  cbn [mbind result_bind].
  repeat match goal with
         | |- context [if ?c then _ else _] => destruct c
         end;
    (eexists; split; [reflexivity|]; split;
     [cbn [In]; tauto | split; [intros H; vm_compute in H; discriminate H
                               | intros H; subst; discriminate H]]).
Qed.









(** ** The history summary *)

Lemma last_map {A B : Type} (f : A -> B) (l : list A) :
  last (map f l) = f <$> last l.
Proof.
  induction l as [|a [|b l] IH]; [done | done |].
  exact IH.
Qed.

Lemma filter_length_le {A : Type} (p : A -> bool) (l : list A) :
  (length (List.filter p l) <= length l)%nat.
Proof.
  induction l as [|a l IH]; [done|]. simpl.
  destruct (p a); simpl; lia.
Qed.

Lemma filter_length_mono {A : Type} (p q : A -> bool) (l : list A) :
  (forall x, p x = true -> q x = true) ->
  (length (List.filter p l) <= length (List.filter q l))%nat.
Proof.
  intros Hpq. induction l as [|a l IH]; [done|]. simpl.
  destruct (p a) eqn:Hp.
  - rewrite (Hpq a Hp). simpl. lia.
  - destruct (q a); simpl; lia.
Qed.

(** The window of [summarise_history]: the entries at most [days] days
    before the last one. *)
Lemma summarise_history_cases (history : list Core.Entry) (days : Z) :
  match last history with
  | None => Core.summarise_history history days = Ok Core.CountZero
  | Some z0 =>
      let window :=
        List.filter
          (fun x => Py.sub_days (Core.date z0) (Core.date x) <=? days)
          history in
      match window with
      | [] => Core.summarise_history history days = Ok Core.CountZero
      | a :: _ =>
          exists z,
            last window = Some z /\
            Core.summarise_history history days
            = Ok (Core.Full
                    {| Core.count := Py.len window;
                       Core.from_ := Py.date_of (Core.date a);
                       Core.to_ := Py.date_of (Core.date z);
                       Core.start := Py.round2 (Core.weight a);
                       Core.end_ := Py.round2 (Core.weight z);
                       Core.avg :=
                         Py.round2 (Py.sum (map Core.weight window)
                                    / inject_Z (Py.len window));
                       Core.delta :=
                         Py.round2 (Core.weight z - Core.weight a);
                       Core.trend :=
                         if Py.Qltb (Core.weight z - Core.weight a) (-0.3)
                         then Core.TREND_DOWN
                         else if Py.Qltb 0.3 (Core.weight z - Core.weight a)
                              then Core.TREND_UP
                              else Core.TREND_FLAT |})
      end
  end.
Proof.
  unfold Core.summarise_history.
  destruct history as [|h hs] eqn:Hh; [done|]. rewrite <- Hh.
  destruct (index_last_cons h hs) as (z0 & Hidx & Hlast).
  rewrite <- Hh in Hidx, Hlast. rewrite Hlast, Hidx.
  cbn [fmap result_fmap mbind result_bind]. cbv zeta.
  destruct (List.filter _ history) as [|a l] eqn:Hw; [done|].
  destruct (index_last_cons a l) as (z & Hz & Hzl).
  exists z. split; [done|].
  assert (Py.index (map Core.weight (a :: l)) (-1) = Ok (Core.weight z))
    as Hwz.
  { destruct (index_last_cons (Core.weight a) (map Core.weight l))
      as (wz & Hwz & Hwl).
    change (Core.weight a :: map Core.weight l)
      with (map Core.weight (a :: l)) in Hwz, Hwl.
    rewrite last_map, Hzl in Hwl. simpl in Hwl. by injection Hwl as <-. }
  assert (Py.index (map Core.weight (a :: l)) 0 = Ok (Core.weight a))
    as Hwa by apply index_first.
  assert (Py.len (map Core.weight (a :: l)) = Py.len (a :: l)) as Hlen
    by (unfold Py.len; by rewrite length_map).
  rewrite (index_first a l).
  set (ws := map Core.weight (a :: l)) in *.
  rewrite Hwz, Hz, Hwa, Hlen.
  cbn [mbind result_bind].
  rewrite truediv_pos by (unfold Py.len; simpl length; lia).
  reflexivity.
Qed.

(** X14: summarise_history never raises, whatever the history, the order of its
    timestamps and the (possibly negative) number of days; its count is the
    number of entries at most [days] days before the last entry, hence
    between 0 and the length of the history. *)
Theorem summarise_history_never_raises (history : list Core.Entry)
    (days : Z) :
  exists s,
    Core.summarise_history history days = Ok s /\
    0 <= Core.get_count s <= Py.len history /\
    (history = [] -> s = Core.CountZero) /\
    (forall z, last history = Some z ->
       Core.get_count s
       = Py.len (List.filter
                   (fun x => Py.sub_days (Core.date z) (Core.date x) <=? days)
                   history)).
Proof.
  pose proof (summarise_history_cases history days) as H.
  destruct (last history) as [z0|] eqn:Hlast.
  - cbv zeta in H.
    pose proof (filter_length_le
                  (fun x => Py.sub_days (Core.date z0) (Core.date x) <=? days)
                  history) as Hle.
    destruct (List.filter _ history) as [|a l] eqn:Hw.
    + exists Core.CountZero. rewrite H.
      split; [done|]. split; [unfold Py.len; simpl; lia|].
      split; [done|].
      intros z Hz. injection Hz as <-. by rewrite Hw.
    + destruct H as (z & _ & ->). eexists. split; [reflexivity|].
      cbn [Core.get_count Core.count].
      split; [unfold Py.len; lia|].
      split; [intros ->; discriminate Hlast|].
      intros z' Hz. injection Hz as <-. by rewrite Hw.
  - exists Core.CountZero. rewrite H.
    split; [done|]. split; [unfold Py.len; simpl; lia|].
    split; [done|].
    intros z Hz. discriminate Hz.
Qed.

(** X15: A longer period never counts fewer entries: the 7-day count of the
    history reply is at most its 30-day count. *)
Theorem summary_count_monotone (history : list Core.Entry) (d1 d2 : Z) :
  d1 <= d2 ->
  exists s1 s2,
    Core.summarise_history history d1 = Ok s1 /\
    Core.summarise_history history d2 = Ok s2 /\
    Core.get_count s1 <= Core.get_count s2.
Proof.
  intros Hd.
  pose proof (summarise_history_cases history d1) as H1.
  pose proof (summarise_history_cases history d2) as H2.
  destruct (last history) as [z0|] eqn:Hlast.
  - cbv zeta in H1, H2.
    set (w1 := List.filter
                 (fun x => Py.sub_days (Core.date z0) (Core.date x) <=? d1)
                 history) in *.
    set (w2 := List.filter
                 (fun x => Py.sub_days (Core.date z0) (Core.date x) <=? d2)
                 history) in *.
    assert (length w1 <= length w2)%nat as Hlen.
    { apply filter_length_mono. intros x Hx.
      apply Z.leb_le in Hx. apply Z.leb_le. lia. }
    clearbody w1 w2.
    destruct w1 as [|a1 l1]; destruct w2 as [|a2 l2].
    + exists Core.CountZero, Core.CountZero. by rewrite H1, H2.
    + destruct H2 as (z2 & _ & ->). eexists Core.CountZero, _.
      rewrite H1. split; [done|]. split; [reflexivity|].
      cbn [Core.get_count Core.count]. unfold Py.len. lia.
    + simpl in Hlen. lia.
    + destruct H1 as (z1 & _ & ->). destruct H2 as (z2 & _ & ->).
      eexists _, _. split; [reflexivity|]. split; [reflexivity|].
      cbn [Core.get_count Core.count]. unfold Py.len. lia.
  - exists Core.CountZero, Core.CountZero. by rewrite H1, H2.
Qed.

Lemma summary_count_monotone_witness : exists s1 s2,
  Core.summarise_history
    [Core.mkEntry 0 80; Core.mkEntry (10 * Py.day_us) 79] 7 = Ok s1 /\
  Core.summarise_history
    [Core.mkEntry 0 80; Core.mkEntry (10 * Py.day_us) 79] 30 = Ok s2 /\
  Core.get_count s1 <= Core.get_count s2.
Proof.
  apply (summary_count_monotone
           [Core.mkEntry 0 80; Core.mkEntry (10 * Py.day_us) 79] 7 30).
  lia.
Defined.

Lemma last_filter {A : Type} (p : A -> bool) (l : list A) (z : A) :
  last l = Some z -> p z = true -> last (List.filter p l) = Some z.
Proof.
  intros Hl Hp. apply last_Some in Hl as (l' & ->).
  rewrite List.filter_app. simpl. rewrite Hp. apply last_snoc.
Qed.

(** X16: For a period of at least 0 days the summary ends at the last entry of
    the history: its end weight is that entry's weight, rounded to two
    decimals, and its last day is that entry's day. *)
Theorem summary_ends_at_last_entry (history : list Core.Entry)
    (z : Core.Entry) (days : Z) :
  last history = Some z -> 0 <= days ->
  exists s,
    Core.summarise_history history days = Ok (Core.Full s) /\
    Core.end_ s = Py.round2 (Core.weight z) /\
    Core.to_ s = Py.date_of (Core.date z).
Proof.
  intros Hlast Hdays.
  pose proof (summarise_history_cases history days) as H.
  rewrite Hlast in H. cbv zeta in H.
  assert (last (List.filter
                  (fun x => Py.sub_days (Core.date z) (Core.date x) <=? days)
                  history) = Some z) as Hz.
  { apply last_filter; [done|]. rewrite sub_days_self. by apply Z.leb_le. }
  destruct (List.filter _ history) as [|a l]; [discriminate Hz|].
  destruct H as (z' & Hz' & ->).
  assert (z' = z) as -> by congruence.
  eexists. split; [reflexivity|]. by split.
Qed.

Lemma summary_ends_at_last_entry_witness : exists s,
  Core.summarise_history
    [Core.mkEntry 0 80; Core.mkEntry (3 * Py.day_us) 79.456] 7
  = Ok (Core.Full s) /\
  Core.end_ s = Py.round2 79.456 /\
  Core.to_ s = Py.date_of (3 * Py.day_us).
Proof.
  apply (summary_ends_at_last_entry
           [Core.mkEntry 0 80; Core.mkEntry (3 * Py.day_us) 79.456]
           (Core.mkEntry (3 * Py.day_us) 79.456) 7).
  - reflexivity.
  - lia.
Defined.








(** ** The progress bar, for every argument *)






(** ** The profile validation *)

Lemma filter_nil_iff {A : Type} (p : A -> bool) (l : list A) :
  List.filter p l = [] <-> forall x, In x l -> p x = false.
Proof.
  induction l as [|a l IH]; simpl.
  - split; [by intros _ x [] | done].
  - destruct (p a) eqn:Hp.
    + split; [done|]. intros H. specialize (H a (or_introl eq_refl)).
      congruence.
    + rewrite IH. split.
      * intros H x [<- | Hx]; [done | by apply H].
      * intros H x Hx. apply H. by right.
Qed.

(** X21: validate_profile passes exactly when the six required keys are present,
    whatever their values; otherwise it raises a ValueError that names the
    missing required keys, and only them, in the order of the list. *)
Theorem validate_profile_missing {V : Type} (p : gmap string V) :
  match Core.validate_profile p with
  | Ok _ => forall k, In k Core.required -> is_Some (p !! k)
  | Raise e =>
      exists missing,
        missing <> [] /\
        e = ValueError ("missing fields: " +:+ Core.join_comma missing) /\
        missing
        = List.filter (fun k => bool_decide (p !! k = None)) Core.required /\
        (forall k, In k missing <-> In k Core.required /\ p !! k = None)
  end.
Proof.
  unfold Core.validate_profile. cbv zeta.
  destruct (List.filter _ Core.required) as [|m ms] eqn:Hf.
  - intros k Hk.
    pose proof (proj1 (filter_nil_iff _ _) Hf k Hk) as Hb. cbv beta in Hb.
    apply bool_decide_eq_false in Hb.
    by destruct (p !! k); [eexists|].
  - exists (m :: ms). split; [done|]. split; [done|]. split; [done|].
    intros k. rewrite <- Hf, List.filter_In.
    by rewrite bool_decide_eq_true.
Qed.

(** X22: validate_profile looks at the keys only: changing the values of a
    profile (to None, say) never changes its verdict. *)
Theorem validate_profile_ignores_values {V W : Type} (f : V -> W)
    (p : gmap string V) :
  Core.validate_profile (f <$> p) = Core.validate_profile p.
Proof.
  unfold Core.validate_profile. cbv zeta.
  assert (List.filter (fun k => bool_decide ((f <$> p) !! k = None))
            Core.required
          = List.filter (fun k => bool_decide (p !! k = None)) Core.required)
    as ->; [|done].
  apply List.filter_ext. intros k. apply bool_decide_ext.
  rewrite lookup_fmap. by rewrite fmap_None.
Qed.

(** ** The conversation handler: what is stored and what escapes *)

Lemma wf_initial : Inv.well_formed App.initial_state.
Proof.
  split; [discriminate|]. intros v Hv. simpl in Hv.
  by rewrite lookup_empty in Hv.
Qed.

Lemma summarise_history_ok (history : list Core.Entry) (days : Z) :
  exists s, Core.summarise_history history days = Ok s.
Proof.
  pose proof (summarise_history_cases history days) as H.
  destruct (last history); [|eauto]. cbv zeta in H.
  destruct (List.filter _ history); [eauto|].
  destruct H as (z & _ & ->). eauto.
Qed.


Lemma progress_bar_ok (done total width : Z) :
  exists bar, Core.progress_bar done total width = Ok bar.
Proof.
  unfold Core.progress_bar. cbv zeta.
  destruct (total =? 0) eqn:E; [by eexists|].
  apply Z.eqb_neq in E. rewrite truediv_nonzero by done. by eexists.
Qed.

Ltac eval_closed :=
  repeat match goal with
         | |- context [Core.progress_bar ?a ?b ?c] =>
             let pb := fresh "pb" in
             destruct (progress_bar_ok a b c) as (pb & ->)
         | |- context [Py.index App.ONBOARD_KEYS ?i] =>
             let v := eval cbv in (Py.index App.ONBOARD_KEYS i) in
             change (Py.index App.ONBOARD_KEYS i) with v
         | |- context [Py.len App.ONBOARD_KEYS <=? ?i] =>
             let v := eval cbv in (Py.len App.ONBOARD_KEYS <=? i) in
             change (Py.len App.ONBOARD_KEYS <=? i) with v
         | |- context [String.eqb (String ?c ?a) (String ?d ?b)] =>
             let v := eval cbv in (String.eqb (String c a) (String d b)) in
             change (String.eqb (String c a) (String d b)) with v
         end.

Ltac step_result :=
  cbv beta iota zeta
      delta [mbind result_bind fmap result_fmap App.uncaught negb fst snd].

Section Conversation.

Variable int_of_str : string -> option Z.
Variable float_of_str : string -> option Q.

Lemma cmd_start_eq (state : App.Session) :
  App.cmd_start state
  = App.Replied
      (App.OnboardingStarted "【░░░░░░░░░░】 0/8" "性別を入力（male/female）")
      (Some (App.mkSession (App.profile state) (App.history state)
                           "onboarding" 0)).
Proof. vm_compute. reflexivity. Qed.



(** One onboarding answer, question by question. *)
Lemma onboarding_step_cases (state : App.Session) (text : string) :
  0 <= App.onboard_idx state < 8 ->
  match App.onboarding_step int_of_str float_of_str state text with
  | App.Replied r None => exists msg, r = App.Reprompt msg
  | App.Replied r (Some s') =>
      App.history s' = App.history state /\
      App.onboard_idx s' = App.onboard_idx state + 1 /\
      (exists k q v,
         Py.index App.ONBOARD_KEYS (App.onboard_idx state) = Ok (k, q) /\
         App.profile s' = <[k := v]> (App.profile state) /\
         (k = "mode" -> exists m, v = App.VStr m)) /\
      ((App.onboard_idx state < 7 /\ App.stage s' = App.stage state /\
        exists pb q, r = App.NextQuestion pb q) \/
       (App.onboard_idx state = 7 /\ App.stage s' = "idle" /\
        ((exists pb plan, r = App.OnboardingDone pb plan) \/
         exists e, r = App.OnboardingIncomplete e)))
  | App.Raised e =>
      exists msg k q,
        e = ValueError msg /\
        Py.index App.ONBOARD_KEYS (App.onboard_idx state) = Ok (k, q) /\
        In k Inv.numeric_keys
  end.
Proof.
  intros Hidx.
  assert (App.onboard_idx state = 0 \/ App.onboard_idx state = 1 \/
          App.onboard_idx state = 2 \/ App.onboard_idx state = 3 \/
          App.onboard_idx state = 4 \/ App.onboard_idx state = 5 \/
          App.onboard_idx state = 6 \/ App.onboard_idx state = 7) as Hcases
    by lia.
  clear Hidx. unfold App.onboarding_step, App.onboard_answer.
  unfold App.int_str, App.float_str.
  destruct Hcases as [Hi | [Hi | [Hi | [Hi | [Hi | [Hi | [Hi | Hi]]]]]]];
    rewrite Hi; cbv zeta; eval_closed; step_result; eval_closed; step_result.
  all: repeat (progress
                 (repeat match goal with
                         | |- context [Py.mem ?a ?l] => destruct (Py.mem a l)
                         | |- context [int_of_str ?x] =>
                             destruct (int_of_str x)
                         | |- context [float_of_str ?x] =>
                             destruct (float_of_str x)
                         | |- context [String.eqb ?a ?b] =>
                             destruct (String.eqb a b)
                         | |- context [Core.validate_profile ?x] =>
                             destruct (Core.validate_profile x)
                         | |- context [App.format_plan ?a ?b ?x] =>
                             destruct (App.format_plan a b x)
                         end; step_result)).
  all: try (by eexists).
  all: try (eexists _, _, _; split; [reflexivity|]; split; [reflexivity|];
            unfold Inv.numeric_keys, In; auto 10).
  all: split; [reflexivity|]; split; [reflexivity|]; split;
    [eexists _, _, _; split; [reflexivity|]; split; [reflexivity|];
     intros; simplify_eq; eauto|].
  all: try (left; split; [lia|]; split; [reflexivity|]; by eexists _, _).
  all: right; split; [reflexivity|]; split; [reflexivity|]; eauto.
Qed.

(** The dispatch of [callback]: which branch handles a text. *)
Lemma handle_dispatch (now : Py.datetime) (state : App.Session)
    (message_text : string) :
  let text := Py.strip message_text in
  let low := Py.lower text in
  let o := App.handle int_of_str float_of_str now state message_text in
  o = App.Replied App.Help None \/
  (Py.mem low ["reset"; "リセット"] = true /\
   o = App.Replied App.ResetDone (Some App.initial_state)) \/
  (Py.mem low ["start"; "開始"] = true /\ o = App.cmd_start state) \/
  o = App.cmd_plan int_of_str float_of_str state \/
  (Py.startswith low "log " = true /\
   o = App.cmd_log float_of_str now state low) \/
  o = App.cmd_history state \/
  o = App.cmd_guide state \/
  o = App.Replied (App.ProfileShown (App.profile state)) None \/
  (Py.startswith low "profile set " = true /\
   o = App.cmd_profile_set int_of_str float_of_str state text) \/
  (App.stage state = "onboarding" /\
   o = App.onboarding_step int_of_str float_of_str state text) \/
  o = App.Replied App.CommandNotFound None.
Proof.
  cbv zeta. unfold App.handle. cbv zeta.
  destruct (Py.mem _ ["help"; _]); [by left | right].
  destruct (Py.mem _ ["reset"; _]); [by left | right].
  destruct (Py.mem _ ["start"; _]); [by left | right].
  destruct (String.eqb _ "plan"); [by left | right].
  destruct (Py.startswith _ "log "); [by left | right].
  destruct (String.eqb _ "history"); [by left | right].
  destruct (String.eqb _ "guide"); [by left | right].
  destruct (Py.startswith _ "profile show"); [by left | right].
  destruct (Py.startswith _ "profile set "); [by left | right].
  destruct (String.eqb (App.stage state) "onboarding") eqn:E; [|by right].
  left. by apply String.eqb_eq in E.
Qed.

Lemma cmd_plan_saved (state : App.Session) :
  exists r, App.cmd_plan int_of_str float_of_str state = App.Replied r None.
Proof. unfold App.cmd_plan. destruct (_ ≫= _); eauto. Qed.

Lemma cmd_history_saved (state : App.Session) :
  exists r, App.cmd_history state = App.Replied r None.
Proof.
  unfold App.cmd_history. destruct (App.history state) as [|h hs] eqn:Hh;
    [eauto|]. rewrite <- Hh.
  destruct (summarise_history_ok (App.simple (App.history state)) 7)
    as (s7 & ->).
  destruct (summarise_history_ok (App.simple (App.history state)) 30)
    as (s30 & ->).
  step_result. eauto.
Qed.

Lemma cmd_guide_saved (state : App.Session) :
  Inv.saved (App.cmd_guide state) = None /\
  (Inv.well_formed state -> exists r, App.cmd_guide state = App.Replied r None).
Proof.
  unfold App.cmd_guide, App.get. split.
  - destruct (negb _); [done|]. by destruct (App.or_str _).
  - intros [_ Hmode].
    destruct (App.profile state !! "mode") as [v|]; [|simpl; eauto].
    destruct (Hmode v eq_refl) as (m & ->). destruct m; simpl; eauto.
Qed.

Lemma cmd_log_saved (now : Py.datetime) (state : App.Session) (low : string) :
  match App.cmd_log float_of_str now state low with
  | App.Replied _ None => True
  | App.Replied _ (Some s') =>
      exists w, s' = App.set_history state
                       (App.history state ++ [Core.mkEntry now (Py.round2 w)])
  | App.Raised _ => False
  end.
Proof.
  unfold App.cmd_log.
  destruct (Py.index (Py.split low) 1 ≫= App.float_str float_of_str)
    as [w|e]; [|done].
  destruct (_ ≫= _); by exists w.
Qed.

Lemma cmd_profile_set_cases (state : App.Session) (text : string) :
  match App.cmd_profile_set int_of_str float_of_str state text with
  | App.Replied r None => r = App.ProfileSetUsage
  | App.Replied r (Some s') =>
      exists k v,
        r = App.ProfileUpdated k v /\
        s' = App.set_profile state (<[k := v]> (App.profile state)) /\
        (k = "mode" -> exists m, v = App.VStr m)
  | App.Raised _ => False
  end.
Proof.
  unfold App.cmd_profile_set.
  destruct (Py.index (Py.split text) 2) as [k|]; [|done].
  destruct (Py.index (Py.split text) 3) as [value|]; [|done].
  step_result.
  destruct (App.coerce int_of_str float_of_str k value) as [v|] eqn:Hc;
    [|done].
  step_result. exists k, v. split; [done|]. split; [done|].
  intros ->. exists value.
  assert (App.coerce int_of_str float_of_str "mode" value
          = Ok (App.VStr value)) as Hm by reflexivity.
  congruence.
Qed.

Lemma onboarding_step_history (state : App.Session) (text : string)
    (r : App.reply) (state' : App.Session) :
  App.onboarding_step int_of_str float_of_str state text
  = App.Replied r (Some state') ->
  App.history state' = App.history state.
Proof.
  intros H. unfold App.onboarding_step in H.
  destruct (Py.index App.ONBOARD_KEYS (App.onboard_idx state)) as [kp|];
    [|discriminate H].
  cbn [mbind result_bind App.uncaught] in H.
  destruct (App.onboard_answer int_of_str float_of_str (fst kp)
              (Py.strip text) (App.profile state)) as [[msg|p]|];
    cbn [mbind result_bind App.uncaught] in H; try discriminate H.
  unfold_result. repeat case_match; simplify_eq; done.
Qed.

Lemma wf_insert (state : App.Session) (k : string) (v : App.pyval)
    (s' : App.Session) :
  Inv.well_formed state ->
  App.profile s' = <[k := v]> (App.profile state) ->
  (k = "mode" -> exists m, v = App.VStr m) ->
  (App.stage s' = "onboarding" ->
   0 <= App.onboard_idx s' < Py.len App.ONBOARD_KEYS) ->
  Inv.well_formed s'.
Proof.
  intros [_ Hmode] Hp Hk Hidx. split; [done|].
  intros v' Hv'. rewrite Hp in Hv'.
  destruct (decide (k = "mode")) as [-> | Hne].
  - rewrite lookup_insert_eq in Hv'. injection Hv' as <-. by apply Hk.
  - rewrite lookup_insert_ne in Hv' by done. by apply Hmode.
Qed.

(** One event keeps the state well formed, and lets nothing but the
    ValueError of a number parse escape. *)
Lemma handle_wf (now : Py.datetime) (state : App.Session)
    (message_text : string) :
  Inv.well_formed state ->
  let o := App.handle int_of_str float_of_str now state message_text in
  Inv.well_formed (App.next_state state o) /\
  (forall e, o = App.Raised e ->
     App.stage state = "onboarding" /\
     exists msg k q,
       e = ValueError msg /\
       Py.index App.ONBOARD_KEYS (App.onboard_idx state) = Ok (k, q) /\
       In k Inv.numeric_keys).
Proof.
  intros Hwf. cbv zeta.
  pose proof (handle_dispatch now state message_text) as Hd.
  cbv zeta in Hd.
  destruct Hd as [-> | [[_ ->] | [[_ ->] | [-> | [[_ ->] | [-> | [-> |
                 [-> | [[_ ->] | [[Hst ->] | ->]]]]]]]]]].
  - by split.
  - split; [apply wf_initial | done].
  - rewrite cmd_start_eq. split; [|done]. cbn [App.next_state].
    destruct Hwf as [_ Hmode]. split; [|done]. intros _. by vm_compute.
  - destruct (cmd_plan_saved state) as (r & ->). by split.
  - pose proof (cmd_log_saved now state (Py.lower (Py.strip message_text)))
      as Hl.
    destruct (App.cmd_log _ _ _ _) as [r [s'|]|e]; [|by split | done].
    destruct Hl as (w & ->). split; [|done]. cbn [App.next_state].
    destruct Hwf as [Hidx Hmode]. by split.
  - destruct (cmd_history_saved state) as (r & ->). by split.
  - destruct (proj2 (cmd_guide_saved state) Hwf) as (r & ->). by split.
  - by split.
  - pose proof (cmd_profile_set_cases state (Py.strip message_text)) as Hp.
    destruct (App.cmd_profile_set _ _ _ _) as [r [s'|]|e];
      [|by split | done].
    destruct Hp as (k & v & _ & -> & Hk). split; [|done].
    cbn [App.next_state].
    apply (wf_insert state k v); [done | done | done |].
    destruct Hwf as [Hidx _]. exact Hidx.
  - destruct Hwf as [Hidx Hmode]. specialize (Hidx Hst).
    change (Py.len App.ONBOARD_KEYS) with 8 in Hidx.
    pose proof (onboarding_step_cases state (Py.strip message_text) Hidx)
      as Ho.
    destruct (App.onboarding_step _ _ _ _) as [r [s'|]|e].
    + split; [|done]. cbn [App.next_state].
      destruct Ho as (_ & Hi & (k & q & v & _ & Hp & Hk) & Hs).
      apply (wf_insert state k v); [by split | done | done |].
      change (Py.len App.ONBOARD_KEYS) with 8.
      destruct Hs as [(Hlt & _ & _) | (_ & Hidle & _)]; [lia|].
      rewrite Hidle. discriminate.
    + split; [by split | done].
    + split; [by split|]. intros e' He'. injection He' as <-. by split.
  - by split.
Qed.

Lemma run_inv (now : Py.datetime) (texts : list string)
    (state : App.Session) :
  Inv.well_formed state ->
  Inv.well_formed (fst (App.run int_of_str float_of_str now state texts)) /\
  Forall Inv.benign (snd (App.run int_of_str float_of_str now state texts)).
Proof.
  revert state. induction texts as [|t texts IH]; intros state Hwf.
  - by split.
  - cbn [App.run].
    destruct (handle_wf now state t Hwf) as [Hnext Hraise].
    destruct (IH _ Hnext) as [Hfinal Hos].
    destruct (App.run _ _ _ _ texts) as [final os].
    split; [done|]. constructor; [|done].
    destruct (App.handle _ _ _ _ t) as [r s'|e]; [done|].
    destruct (Hraise e eq_refl) as (_ & msg & _ & _ & -> & _). by exists msg.
Qed.


Lemma handle_start (now : Py.datetime) (state : App.Session)
    (message_text : string) :
  Py.mem (Py.lower (Py.strip message_text)) ["start"; "開始"] = true ->
  App.handle int_of_str float_of_str now state message_text
  = App.cmd_start state.
Proof.
  intros H. unfold App.handle. cbv zeta.
  remember (Py.lower (Py.strip message_text)) as low eqn:Hlow. clear Hlow.
  unfold Py.mem in H. cbn [existsb] in H.
  apply orb_true_iff in H as [H | H];
    [|apply orb_true_iff in H as [H | H]; [|discriminate H]];
    apply String.eqb_eq in H; by subst low.
Qed.

End Conversation.

(** X23: In any conversation from the initial state, whatever the texts and
    whatever int() and float() accept, every state the handler stores is
    well formed (while onboarding, the index points at a question; the
    mode is a string), and the only exception that leaves the handler is a
    ValueError. *)
Theorem conversation_invariant
    (int_of_str : string -> option Z) (float_of_str : string -> option Q)
    (now : Py.datetime) (texts : list string) :
  Inv.well_formed
    (fst (App.run int_of_str float_of_str now App.initial_state texts)) /\
  Forall Inv.benign
    (snd (App.run int_of_str float_of_str now App.initial_state texts)).
Proof. apply run_inv, wf_initial. Qed.

(** X24: From a well-formed state an exception leaves the handler only in stage
    onboarding, at one of the five numeric questions, and it is the
    ValueError of the number parse; every command, and every answer to the
    three enumerated questions, is replied to. *)
Theorem handle_raises_in_onboarding
    (int_of_str : string -> option Z) (float_of_str : string -> option Q)
    (now : Py.datetime) (state : App.Session) (message_text : string)
    (e : exn) :
  Inv.well_formed state ->
  App.handle int_of_str float_of_str now state message_text = App.Raised e ->
  App.stage state = "onboarding" /\
  exists msg k q,
    e = ValueError msg /\
    Py.index App.ONBOARD_KEYS (App.onboard_idx state) = Ok (k, q) /\
    In k Inv.numeric_keys.
Proof.
  intros Hwf He.
  by apply (proj2 (handle_wf int_of_str float_of_str now state message_text
                     Hwf)).
Qed.

Lemma handle_raises_in_onboarding_witness :
  App.stage (App.mkSession ∅ [] "onboarding" 2) = "onboarding" /\
  exists msg k q,
    ValueError "could not convert string to float" = ValueError msg /\
    Py.index App.ONBOARD_KEYS
      (App.onboard_idx (App.mkSession ∅ [] "onboarding" 2)) = Ok (k, q) /\
    In k Inv.numeric_keys.
Proof.
  apply (handle_raises_in_onboarding App.ascii_int App.ascii_float 0
           (App.mkSession ∅ [] "onboarding" 2) "tall").
  - split; [intros _; by vm_compute|].
    intros v Hv. simpl in Hv. by rewrite lookup_empty in Hv.
  - vm_compute. reflexivity.
Defined.

(** X25: One event changes the history in two ways only: a reset empties it
    (with the whole state), a log appends one entry, stamped with the
    current time and holding a weight rounded to two decimals. *)
Theorem history_append_only
    (int_of_str : string -> option Z) (float_of_str : string -> option Q)
    (now : Py.datetime) (state : App.Session) (message_text : string) :
  let state' :=
    App.next_state state
      (App.handle int_of_str float_of_str now state message_text) in
  state' = App.initial_state \/
  App.history state' = App.history state \/
  exists w,
    App.history state'
    = App.history state ++ [Core.mkEntry now (Py.round2 w)].
Proof.
  cbv zeta.
  pose proof (handle_dispatch int_of_str float_of_str now state message_text)
    as Hd.
  cbv zeta in Hd.
  destruct Hd as [-> | [[_ ->] | [[_ ->] | [-> | [[_ ->] | [-> | [-> |
                 [-> | [[_ ->] | [[Hst ->] | ->]]]]]]]]]].
  - right. by left.
  - by left.
  - rewrite cmd_start_eq. right. by left.
  - destruct (cmd_plan_saved int_of_str float_of_str state) as (r & ->).
    right. by left.
  - pose proof (cmd_log_saved float_of_str now state
                  (Py.lower (Py.strip message_text))) as Hl.
    destruct (App.cmd_log _ _ _ _) as [r [s'|]|e];
      [|right; by left | done].
    destruct Hl as (w & ->). right. right. by exists w.
  - destruct (cmd_history_saved state) as (r & ->). right. by left.
  - pose proof (proj1 (cmd_guide_saved state)) as Hg.
    destruct (App.cmd_guide state) as [r [s'|]|e]; [done | |];
      right; by left.
  - right. by left.
  - pose proof (cmd_profile_set_cases int_of_str float_of_str state
                  (Py.strip message_text)) as Hp.
    destruct (App.cmd_profile_set _ _ _ _) as [r [s'|]|e];
      [|right; by left | done].
    destruct Hp as (k & v & _ & -> & _). right. by left.
  - right. left.
    destruct (App.onboarding_step _ _ _ _) as [r [s'|]|e] eqn:Ho;
      [|done | done].
    by apply onboarding_step_history in Ho.
  - right. by left.
Qed.




(** X28: start (in any case, in either language) begins the onboarding at the
    first question with an empty progress bar, and keeps the profile and the
    history that are stored: it is no reset. *)
Theorem start_keeps_profile
    (int_of_str : string -> option Z) (float_of_str : string -> option Q)
    (now : Py.datetime) (state : App.Session) (message_text : string) :
  Py.mem (Py.lower (Py.strip message_text)) ["start"; "開始"] = true ->
  exists state',
    App.handle int_of_str float_of_str now state message_text
    = App.Replied
        (App.OnboardingStarted "【░░░░░░░░░░】 0/8" "性別を入力（male/female）")
        (Some state') /\
    App.profile state' = App.profile state /\
    App.history state' = App.history state /\
    App.stage state' = "onboarding" /\
    App.onboard_idx state' = 0.
Proof.
  intros H.
  rewrite (handle_start int_of_str float_of_str now state message_text H).
  rewrite cmd_start_eq. by eexists.
Qed.

Lemma start_keeps_profile_witness : exists state',
  App.handle App.ascii_int App.ascii_float 0
    (App.mkSession (<["mode" := App.VStr "cut"]> ∅) [Core.mkEntry 0 80]
                   "idle" 8) "  Start "
  = App.Replied
      (App.OnboardingStarted "【░░░░░░░░░░】 0/8" "性別を入力（male/female）")
      (Some state') /\
  App.profile state'
  = App.profile (App.mkSession (<["mode" := App.VStr "cut"]> ∅)
                               [Core.mkEntry 0 80] "idle" 8) /\
  App.history state'
  = App.history (App.mkSession (<["mode" := App.VStr "cut"]> ∅)
                               [Core.mkEntry 0 80] "idle" 8) /\
  App.stage state' = "onboarding" /\
  App.onboard_idx state' = 0.
Proof.
  apply (start_keeps_profile App.ascii_int App.ascii_float 0
           (App.mkSession (<["mode" := App.VStr "cut"]> ∅) [Core.mkEntry 0 80]
                          "idle" 8) "  Start ").
  reflexivity.
Defined.

(** X29: An answer to an onboarding question (index 0 to 7) is re-prompted with
    nothing stored, or raises a ValueError at a numeric question, or is
    stored under the key of the question: then the index advances by
    exactly one, the history is untouched, and the stage turns to idle
    exactly after the last question. *)
Theorem onboarding_step_advances
    (int_of_str : string -> option Z) (float_of_str : string -> option Q)
    (state : App.Session) (text : string) :
  0 <= App.onboard_idx state < 8 ->
  match App.onboarding_step int_of_str float_of_str state text with
  | App.Replied r None => exists msg, r = App.Reprompt msg
  | App.Replied r (Some state') =>
      App.history state' = App.history state /\
      App.onboard_idx state' = App.onboard_idx state + 1 /\
      (exists k q v,
         Py.index App.ONBOARD_KEYS (App.onboard_idx state) = Ok (k, q) /\
         App.profile state' = <[k := v]> (App.profile state)) /\
      (App.onboard_idx state < 7 -> App.stage state' = App.stage state) /\
      (App.onboard_idx state = 7 -> App.stage state' = "idle")
  | App.Raised e =>
      exists msg k q,
        e = ValueError msg /\
        Py.index App.ONBOARD_KEYS (App.onboard_idx state) = Ok (k, q) /\
        In k Inv.numeric_keys
  end.
Proof.
  intros Hidx.
  pose proof (onboarding_step_cases int_of_str float_of_str state text Hidx)
    as H.
  destruct (App.onboarding_step _ _ _ _) as [r [s'|]|e]; [|done | done].
  destruct H as (Hh & Hi & (k & q & v & Hk & Hp & _) & Hs).
  split; [done|]. split; [done|]. split; [by exists k, q, v|].
  destruct Hs as [(Hlt & Hst & _) | (Heq & Hst & _)]; split; intros; try lia;
    done.
Qed.

Lemma onboarding_step_advances_witness :
  match App.onboarding_step App.ascii_int App.ascii_float
          (App.mkSession ∅ [] "onboarding" 0) "Female" with
  | App.Replied r None => exists msg, r = App.Reprompt msg
  | App.Replied r (Some state') =>
      App.history state'
      = App.history (App.mkSession ∅ [] "onboarding" 0) /\
      App.onboard_idx state'
      = App.onboard_idx (App.mkSession ∅ [] "onboarding" 0) + 1 /\
      (exists k q v,
         Py.index App.ONBOARD_KEYS
           (App.onboard_idx (App.mkSession ∅ [] "onboarding" 0)) = Ok (k, q) /\
         App.profile state'
         = <[k := v]> (App.profile (App.mkSession ∅ [] "onboarding" 0))) /\
      (App.onboard_idx (App.mkSession ∅ [] "onboarding" 0) < 7 ->
       App.stage state' = App.stage (App.mkSession ∅ [] "onboarding" 0)) /\
      (App.onboard_idx (App.mkSession ∅ [] "onboarding" 0) = 7 ->
       App.stage state' = "idle")
  | App.Raised e =>
      exists msg k q,
        e = ValueError msg /\
        Py.index App.ONBOARD_KEYS
          (App.onboard_idx (App.mkSession ∅ [] "onboarding" 0)) = Ok (k, q) /\
        In k Inv.numeric_keys
  end.
Proof.
  apply (onboarding_step_advances App.ascii_int App.ascii_float
           (App.mkSession ∅ [] "onboarding" 0) "Female").
  simpl. lia.
Defined.

(** ** The plan of a profile *)

Section FormatPlan.

Variable int_of_str : string -> option Z.
Variable float_of_str : string -> option Q.

(** The call of [build_plan] behind a formatted plan. *)
Lemma format_plan_build (profile : gmap string App.pyval) (plan : Core.Plan) :
  App.format_plan int_of_str float_of_str profile = Ok plan ->
  exists sex age height_cm weight_kg activity mode goal_weight deadline_days,
    Core.build_plan sex age height_cm weight_kg activity mode
                    goal_weight deadline_days = Ok plan /\
    (App.given (App.get profile "goal_weight") = false ->
     goal_weight = None) /\
    (App.given (App.get profile "deadline_days") = false ->
     deadline_days = None).
Proof.
  unfold App.format_plan. cbv zeta. intros H.
  destruct (App.getitem profile "sex") as [sexv|]; [|discriminate H].
  cbn [mbind result_bind] in H.
  destruct (App.getitem profile "age" ≫= App.to_int int_of_str) as [age|];
    [|discriminate H].
  cbn [mbind result_bind] in H.
  destruct (App.getitem profile "height_cm" ≫= App.to_float float_of_str)
    as [height_cm|]; [|discriminate H].
  cbn [mbind result_bind] in H.
  destruct (App.getitem profile "weight_kg" ≫= App.to_float float_of_str)
    as [weight_kg|]; [|discriminate H].
  cbn [mbind result_bind] in H.
  destruct (App.getitem profile "activity") as [activity|]; [|discriminate H].
  cbn [mbind result_bind] in H.
  destruct (App.getitem profile "mode") as [modev|]; [|discriminate H].
  cbn [mbind result_bind] in H.
  destruct (if App.given (App.get profile "goal_weight") then _ else _)
    as [goal_weight|] eqn:Hg; [|discriminate H].
  cbn [mbind result_bind] in H.
  destruct (if App.given (App.get profile "deadline_days") then _ else _)
    as [deadline_days|] eqn:Hd; [|discriminate H].
  cbn [mbind result_bind] in H.
  unfold App.call_build_plan in H.
  destruct (App.or_str sexv) as [sex|]; [|discriminate H].
  cbn [mbind result_bind] in H.
  destruct (App.or_str modev) as [mode|].
  - exists sex, age, height_cm, weight_kg, (App.key_str activity), mode,
      goal_weight, deadline_days.
    split; [done|]. split; intros Hn.
    + rewrite Hn in Hg. by apply Ok_inj in Hg.
    + rewrite Hn in Hd. by apply Ok_inj in Hd.
  - destruct (Core.calculate_bmr sex weight_kg height_cm age) as [b|];
      [|discriminate H].
    cbn [mbind result_bind] in H.
    by destruct (Core.calculate_tdee b (App.key_str activity)).
Qed.

End FormatPlan.

(** X30: A profile without a usable goal weight or deadline (a field that is
    missing, was skipped at onboarding and stored as None, or holds the
    empty string or "skip") gets the plan of its mode's preset: -500 for
    cut, +300 for bulk, 0 otherwise, and no note. *)
Theorem format_plan_skipped_target
    (int_of_str : string -> option Z) (float_of_str : string -> option Q)
    (profile : gmap string App.pyval) (plan : Core.Plan) :
  App.format_plan int_of_str float_of_str profile = Ok plan ->
  App.given (App.get profile "goal_weight") = false \/
  App.given (App.get profile "deadline_days") = false ->
  Core.notes plan = [] /\
  (Core.mode plan = "cut" -> Core.delta_kcal plan = -500) /\
  (Core.mode plan = "bulk" -> Core.delta_kcal plan = 300) /\
  (Core.mode plan <> "cut" -> Core.mode plan <> "bulk" ->
   Core.delta_kcal plan = 0).
Proof.
  intros Hplan Hskip.
  destruct (format_plan_build int_of_str float_of_str profile plan Hplan)
    as (sex & age & h & w & act & mode & gw & dd & Hb & Hg & Hd).
  apply (build_plan_presets sex age h w act mode gw dd plan Hb).
  destruct Hskip as [Hs | Hs]; [left; by apply Hg | right; left; by apply Hd].
Qed.

Lemma format_plan_skipped_target_witness : exists plan,
  App.format_plan App.ascii_int App.ascii_float
    (<["sex" := App.VStr "male"]>
       (<["age" := App.VInt 30]>
          (<["height_cm" := App.VFloat 175]>
             (<["weight_kg" := App.VFloat 70]>
                (<["activity" := App.VStr "light"]>
                   (<["mode" := App.VStr "cut"]>
                      (<["goal_weight" := App.VNone]>
                         (<["deadline_days" := App.VInt 30]> ∅))))))))
  = Ok plan /\
  Core.notes plan = [] /\
  (Core.mode plan = "cut" -> Core.delta_kcal plan = -500) /\
  (Core.mode plan = "bulk" -> Core.delta_kcal plan = 300) /\
  (Core.mode plan <> "cut" -> Core.mode plan <> "bulk" ->
   Core.delta_kcal plan = 0).
Proof.
  eexists. split; [vm_compute; reflexivity|].
  apply (format_plan_skipped_target App.ascii_int App.ascii_float
           (<["sex" := App.VStr "male"]>
              (<["age" := App.VInt 30]>
                 (<["height_cm" := App.VFloat 175]>
                    (<["weight_kg" := App.VFloat 70]>
                       (<["activity" := App.VStr "light"]>
                          (<["mode" := App.VStr "cut"]>
                             (<["goal_weight" := App.VNone]>
                                (<["deadline_days" := App.VInt 30]> ∅))))))))).
  - vm_compute. reflexivity.
  - left. reflexivity.
Defined.
